(** * Lifestack gateway: caching, credential refresh, actuation guard, aggregation

    A shallow embedding of the resilient core of the lifestack gateway
    (Node.js): the Pavlok controller with its rate limiter and confirmation
    check, the shared TTL cache and its users, the Strava client's token
    refresh, the unified dashboard aggregation and the calendar write
    handlers.  Each definition keeps the name of the JavaScript function it
    embeds. *)

From Stdlib Require Import ZArith Lia Bool.
From stdpp Require Import base gmap strings list pretty.

Open Scope string_scope.
Open Scope list_scope.
Open Scope Z_scope.

(** ** JavaScript values *)

(** The values that request bodies, cache entries and fetch results range
    over.  Numbers are split by what the code asks of them
    ([Number.isInteger], comparisons, truthiness). *)
Inductive jsval : Type :=
| VUndefined
| VNull
| VBool (b : bool)
| VInt (n : Z)          (* an integral number *)
| VNonInt               (* a finite non-integral number or an infinity *)
| VNaN
| VStr (s : string)
| VObj (tag : string).  (* an object or array, identified by a tag *)

#[global] Instance jsval_eq_dec : EqDecision jsval.
Proof. solve_decision. Defined.

(** ToBoolean: what [if (v)] and [v || d] test. *)
Definition truthy (v : jsval) : bool :=
  match v with
  | VUndefined | VNull | VNaN => false
  | VBool b => b
  | VInt n => negb (n =? 0)
  | VNonInt => true
  | VStr s => negb (String.eqb s "")
  | VObj _ => true
  end.

(** [a || b] *)
Definition js_or (a b : jsval) : jsval := if truthy a then a else b.

(** [v !== true] *)
Definition strict_neq_true (v : jsval) : bool :=
  match v with
  | VBool true => false
  | _ => true
  end.

(** [null] and [undefined]: the two values of which reading a property
    throws. *)
Inductive nullish : Type :=
| Null
| Undefined.

(** The message of the TypeError that Node.js (V8, version 16 and later)
    throws when the property [prop] is read of [null] or [undefined]. *)
Definition cannot_read (n : nullish) (prop : string) : string :=
  "Cannot read properties of "
  +:+ match n with Null => "null" | Undefined => "undefined" end
  +:+ " (reading '" +:+ prop +:+ "')".

(** The one-character string holding a double quote. *)
Definition dquote : string := String (Ascii.ascii_of_nat 34) EmptyString.

(** [Math.ceil(a / b)] for integers [a] and a positive integer [b]. *)
Definition ceil_div (a b : Z) : Z := - ((- a) / b).

(** ** Rate limiter (pavlok/controller.js) *)

Module RateLimiter.

(** [const lastActionTime = { beep: 0, vibrate: 0, shock: 0 }] *)
Definition lastActionTime_init : gmap string Z :=
  <["beep" := 0]> (<["vibrate" := 0]> (<["shock" := 0]> ∅)).

Definition RATE_LIMIT_MS : Z := 5000.

(** The object [checkRateLimit] returns; [timeRemaining] is absent when the
    action is allowed. *)
Record rateLimit : Type := mkRateLimit {
  allowed : bool;
  timeRemaining : option Z
}.

(** [checkRateLimit(type)], with the reading of [Date.now()] passed in.  A
    key the object does not hold reads [undefined]; the subtraction is then
    NaN and the comparison false. *)
Definition checkRateLimit (lastActionTime : gmap string Z) (type : string)
    (now : Z) : rateLimit :=
  match lastActionTime !! type with
  | Some last =>
      let timeSinceLastAction := now - last in
      if timeSinceLastAction <? RATE_LIMIT_MS then
        let timeRemaining :=
          ceil_div (RATE_LIMIT_MS - timeSinceLastAction) 1000 in
        mkRateLimit false (Some timeRemaining)
      else mkRateLimit true None
  | None => mkRateLimit true None
  end.

(** [updateRateLimit(type)] *)
Definition updateRateLimit (lastActionTime : gmap string Z) (type : string)
    (now : Z) : gmap string Z :=
  <[type := now]> lastActionTime.

End RateLimiter.

(** ** Pavlok client and controller *)

Module Pavlok.

(** A JavaScript [Error] as the handlers read it: [message] and the optional
    [status] the clients attach. *)
Record error : Type := mkError {
  message : string;
  status : option Z
}.

(** How the axios POST of [_sendStimulus] settles: a response, an error
    carrying a response (its status and the [message] of its data, or its
    status alone when the data is [null] or [undefined]), or an error without
    one (network failure, timeout). *)
Inductive http_result : Type :=
| HttpOk
| HttpErrorResponse (st : Z) (data_message : option string)
| HttpErrorNoData (st : Z) (data : nullish)
| HttpNoResponse.

(** A document of the PavlokStimulus collection (the fields [logStimulus]
    sets). *)
Record stimulus_record : Type := mkStimulus {
  s_type : string;
  s_intensity : jsval;
  s_reason : jsval;
  s_success : bool;
  s_error : option string
}.

(** The effects of a handler that leave the process or consult shared
    state, in the order they happen. *)
Inductive event : Type :=
| EvRateCheck (type : string)
| EvPost (type : string) (intensity : Z)
| EvRateUpdate (type : string)
| EvSave (r : stimulus_record) (ok : bool).

(** What the handler cannot decide itself: the successive readings of
    [Date.now()], the configured token, how the device API answers a POST,
    and whether saving a history document succeeds. *)
Record env : Type := mkEnv {
  clock : nat → Z;
  pavlokToken : jsval;
  post : string → Z → http_result;
  db_save : stimulus_record → bool
}.

(** Process-wide state: the rate limiter's object, the history collection,
    the effects so far and the number of clock readings taken. *)
Record state : Type := mkState {
  lastActionTime : gmap string Z;
  history : list stimulus_record;
  trace : list event;
  ticks : nat
}.

Definition init_state : state :=
  mkState RateLimiter.lastActionTime_init [] [] 0%nat.

(** A computation either returns or throws, and threads the state. *)
Inductive outcome (A : Type) : Type :=
| Ret (a : A)
| Thrown (e : error).
Arguments Ret {A} a.
Arguments Thrown {A} e.

Definition M (A : Type) : Type := env → state → outcome A * state.

Definition ret {A} (a : A) : M A := fun _ s => (Ret a, s).

Definition throw {A} (e : error) : M A := fun _ s => (Thrown e, s).

Definition bind {A B} (c : M A) (k : A → M B) : M B :=
  fun e s =>
    match c e s with
    | (Ret a, s') => k a e s'
    | (Thrown err, s') => (Thrown err, s')
    end.

(** [try { c } catch (error) { h error }] *)
Definition try_catch {A} (c : M A) (h : error → M A) : M A :=
  fun e s =>
    match c e s with
    | (Ret a, s') => (Ret a, s')
    | (Thrown err, s') => h err e s'
    end.

Notation "'let!' x ':=' c 'in' k" := (bind c (fun x => k))
  (at level 10, x name, c at level 100, k at level 200).

Definition emit (ev : event) : M unit :=
  fun _ s =>
    (Ret tt, mkState (lastActionTime s) (history s) (trace s ++ [ev]) (ticks s)).

(** [Date.now()] *)
Definition Date_now : M Z :=
  fun e s =>
    (Ret (clock e (ticks s)),
     mkState (lastActionTime s) (history s) (trace s) (S (ticks s))).

(** [checkRateLimit(type)] on the process-wide object. *)
Definition checkRateLimit (type : string) : M RateLimiter.rateLimit :=
  let! _ := emit (EvRateCheck type) in
  let! now := Date_now in
  fun _ s => (Ret (RateLimiter.checkRateLimit (lastActionTime s) type now), s).

(** [updateRateLimit(type)] on the process-wide object. *)
Definition updateRateLimit (type : string) : M unit :=
  let! _ := emit (EvRateUpdate type) in
  let! now := Date_now in
  fun _ s =>
    (Ret tt,
     mkState (RateLimiter.updateRateLimit (lastActionTime s) type now)
             (history s) (trace s) (ticks s)).

(** [logStimulus(type, intensity, reason, success, error = null)]: builds the
    document and saves it; a failure of either is caught, reported on the
    console and answered with [null], so the computation never throws. *)
Definition logStimulus (type : string) (intensity reason : jsval)
    (success : bool) (err : option string) : M unit :=
  fun e s =>
    let stimulus := mkStimulus type intensity (js_or reason VNull) success err in
    let ok := db_save e stimulus in
    (Ret tt,
     mkState (lastActionTime s)
             (if ok then history s ++ [stimulus] else history s)
             (trace s ++ [EvSave stimulus ok]) (ticks s)).

(** The client object: the token it was built with. *)
Record PavlokClient : Type := mkClient { token : jsval }.

(** [createPavlokClient()]: [token || pavlokConfig?.token], and a throw when
    that is falsy. *)
Definition createPavlokClient : M PavlokClient :=
  fun e s =>
    if truthy (pavlokToken e) then (Ret (mkClient (pavlokToken e)), s)
    else
      (Thrown (mkError
         "Pavlok token is required. Please set PAVLOK_TOKEN in environment variables."
         None), s).

Record validation : Type := mkValidation {
  valid : bool;
  v_error : option string
}.

(** [PavlokClient.validateIntensity(intensity)] *)
Definition validateIntensity (intensity : jsval) : validation :=
  match intensity with
  | VUndefined | VNull => mkValidation false (Some "Intensity is required")
  | VInt n =>
      if (n <? 1) || (4 <? n)
      then mkValidation false (Some "Intensity must be between 1 and 4")
      else mkValidation true None
  | _ => mkValidation false (Some "Intensity must be an integer")
  end.

(** [s || d] on an optional string field. *)
Definition str_or (s : option string) (d : string) : string :=
  match s with
  | Some m => if String.eqb m "" then d else m
  | None => d
  end.

(** [PavlokClient._handleError(error, message)]: always throws.  For a
    status other than 401, 403 and 404 it reads [pavlokError.message]; when
    the data of the response is [null] or [undefined] that read throws a
    TypeError, which leaves the method in place of the formatted error and
    has no [status]. *)
Definition client_handleError (r : http_result) (msg : string) : error :=
  match r with
  | HttpErrorResponse st data_message =>
      if (st =? 401) || (st =? 403)
      then mkError "Invalid or expired Pavlok token" (Some 401)
      else if st =? 404
      then mkError "Invalid Pavlok API endpoint" (Some 404)
      else if st =? 400
      then mkError (str_or data_message "Invalid request parameters") (Some 400)
      else mkError (str_or data_message msg) (Some st)
  | HttpErrorNoData st data =>
      if (st =? 401) || (st =? 403)
      then mkError "Invalid or expired Pavlok token" (Some 401)
      else if st =? 404
      then mkError "Invalid Pavlok API endpoint" (Some 404)
      else mkError (cannot_read data "message") None
  | HttpOk | HttpNoResponse => mkError msg (Some 500)
  end.

(** [PavlokClient._sendStimulus(type, intensity)] *)
Definition _sendStimulus (type : string) (intensity : jsval) : M unit :=
  let msg := "Failed to send " +:+ type +:+ " stimulus" in
  match intensity with
  | VInt n =>
      if (n <? 1) || (4 <? n) then throw (client_handleError HttpNoResponse msg)
      else
        let! _ := emit (EvPost type n) in
        fun e s =>
          match post e type n with
          | HttpOk => (Ret tt, s)
          | r => (Thrown (client_handleError r msg), s)
          end
  | _ => throw (client_handleError HttpNoResponse msg)
  end.

Definition beep (c : PavlokClient) (intensity : jsval) : M unit :=
  _sendStimulus "beep" intensity.

Definition vibrate (c : PavlokClient) (intensity : jsval) : M unit :=
  _sendStimulus "vibration" intensity.

Definition shock (c : PavlokClient) (intensity : jsval) : M unit :=
  _sendStimulus "shock" intensity.

(** The JSON bodies the handlers send.  The [timestamp] field of a success
    body (the wall clock when the response is written) is not modelled. *)
Inductive json : Type :=
| JsonError (err : string) (msg : option string) (remaining : option Z)
| JsonSuccess (type : string) (intensity : jsval) (reason : jsval).

Record response : Type := mkResponse {
  res_status : Z;
  res_body : json
}.

(** [req.body] of the three trigger endpoints. *)
Record body : Type := mkBody {
  intensity : jsval;
  confirm : jsval;
  reason : jsval
}.

(** [error.status || 500] *)
Definition status_or_500 (e : error) : Z :=
  match status e with
  | Some st => if st =? 0 then 500 else st
  | None => 500
  end.

(** [handleError(res, error, message)] *)
Definition handleError (err : error) (msg : string) : M response :=
  ret (mkResponse (status_or_500 err) (JsonError msg (Some (message err)) None)).

Definition option_get {A} (d : A) (o : option A) : A :=
  match o with Some a => a | None => d end.

Definition wait_message (remaining : option Z) (what : string) : string :=
  "Please wait " +:+ match remaining with
                     | Some n => pretty n
                     | None => "undefined"
                     end
  +:+ " seconds before triggering another " +:+ what.

(** [triggerBeep(req, res)] *)
Definition triggerBeep (req : body) : M response :=
  try_catch
    (let! pavlokClient := createPavlokClient in
     let validation := validateIntensity (intensity req) in
     if negb (valid validation) then
       ret (mkResponse 400 (JsonError (option_get "" (v_error validation)) None None))
     else
       let! rateLimit := checkRateLimit "beep" in
       if negb (RateLimiter.allowed rateLimit) then
         ret (mkResponse 429
                (JsonError "Rate limit exceeded"
                   (Some (wait_message (RateLimiter.timeRemaining rateLimit) "beep"))
                   (RateLimiter.timeRemaining rateLimit)))
       else
         let! result := beep pavlokClient (intensity req) in
         let! _ := updateRateLimit "beep" in
         let! _ := logStimulus "beep" (intensity req) (reason req) true None in
         ret (mkResponse 200
                (JsonSuccess "beep" (intensity req) (js_or (reason req) VNull))))
    (fun err =>
       let! _ := logStimulus "beep" (intensity req) (reason req) false
                   (Some (message err)) in
       handleError err "Failed to trigger beep").

(** [triggerVibration(req, res)] *)
Definition triggerVibration (req : body) : M response :=
  try_catch
    (let! pavlokClient := createPavlokClient in
     let validation := validateIntensity (intensity req) in
     if negb (valid validation) then
       ret (mkResponse 400 (JsonError (option_get "" (v_error validation)) None None))
     else
       let! rateLimit := checkRateLimit "vibrate" in
       if negb (RateLimiter.allowed rateLimit) then
         ret (mkResponse 429
                (JsonError "Rate limit exceeded"
                   (Some (wait_message (RateLimiter.timeRemaining rateLimit) "vibration"))
                   (RateLimiter.timeRemaining rateLimit)))
       else
         let! result := vibrate pavlokClient (intensity req) in
         let! _ := updateRateLimit "vibrate" in
         let! _ := logStimulus "vibrate" (intensity req) (reason req) true None in
         ret (mkResponse 200
                (JsonSuccess "vibration" (intensity req) (js_or (reason req) VNull))))
    (fun err =>
       let! _ := logStimulus "vibrate" (intensity req) (reason req) false
                   (Some (message err)) in
       handleError err "Failed to trigger vibration").

(** The body of the 400 that [triggerShock] sends when the confirmation is
    missing. *)
Definition confirmation_required : json :=
  JsonError "Safety confirmation required"
    (Some ("Shock requires explicit confirmation. Set " +:+ dquote
           +:+ "confirm: true" +:+ dquote +:+ " in request body."))
    None.

(** [triggerShock(req, res)] *)
Definition triggerShock (req : body) : M response :=
  try_catch
    (if strict_neq_true (confirm req) then
       ret (mkResponse 400 confirmation_required)
     else
       let! pavlokClient := createPavlokClient in
       let validation := validateIntensity (intensity req) in
       if negb (valid validation) then
         ret (mkResponse 400 (JsonError (option_get "" (v_error validation)) None None))
       else
         let! rateLimit := checkRateLimit "shock" in
         if negb (RateLimiter.allowed rateLimit) then
           ret (mkResponse 429
                  (JsonError "Rate limit exceeded"
                     (Some (wait_message (RateLimiter.timeRemaining rateLimit) "shock"))
                     (RateLimiter.timeRemaining rateLimit)))
         else
           let! result := shock pavlokClient (intensity req) in
           let! _ := updateRateLimit "shock" in
           let! _ := logStimulus "shock" (intensity req) (reason req) true None in
           ret (mkResponse 200
                  (JsonSuccess "shock" (intensity req) (js_or (reason req) VNull))))
    (fun err =>
       let! _ := logStimulus "shock" (intensity req) (reason req) false
                   (Some (message err)) in
       handleError err "Failed to trigger shock").

(** The three trigger endpoints, the key each uses in [lastActionTime] and
    in the history, and the stimulus name it sends to the device. *)
Inductive kind : Type := KBeep | KVibrate | KShock.

Definition trigger (k : kind) : body → M response :=
  match k with
  | KBeep => triggerBeep
  | KVibrate => triggerVibration
  | KShock => triggerShock
  end.

Definition rate_key (k : kind) : string :=
  match k with
  | KBeep => "beep"
  | KVibrate => "vibrate"
  | KShock => "shock"
  end.

(** The same environment with another behaviour of the history store. *)
Definition with_db (e : env) (save : stimulus_record → bool) : env :=
  mkEnv (clock e) (pavlokToken e) (post e) save.

(** The effects a run added to the trace. *)
Definition new_events (s s' : state) : list event :=
  drop (length (trace s)) (trace s').

Definition is_ok (r : http_result) : bool :=
  match r with HttpOk => true | _ => false end.

(** Sample inputs: an environment whose device API answers every POST,
    one whose device API answers 503, and a state in which a shock was
    triggered at 9000 ms. *)
Definition env_ok : env :=
  mkEnv (fun _ => 10000) (VStr "token") (fun _ _ => HttpOk) (fun _ => true).

Definition env_down : env :=
  mkEnv (fun _ => 10000) (VStr "token")
    (fun _ _ => HttpErrorResponse 503 None) (fun _ => true).

Definition state_cooling : state :=
  mkState (RateLimiter.updateRateLimit RateLimiter.lastActionTime_init "shock" 9000)
    [] [] 0%nat.

(** The stimulus name each endpoint sends to the device, and the POSTs
    among a list of effects. *)
Definition device_name (k : kind) : string :=
  match k with
  | KBeep => "beep"
  | KVibrate => "vibration"
  | KShock => "shock"
  end.

Definition is_post (ev : event) : bool :=
  match ev with EvPost _ _ => true | _ => false end.

(** One entry of the [status] object of [getRateLimitStatus];
    [lastTriggered] holds the time that is sent as an ISO string, [None]
    for [null]. *)
Record class_status : Type := mkClassStatus {
  canTrigger : bool;
  lastTriggered : option Z;
  left_seconds : Z
}.

Record rate_status : Type := mkRateStatus {
  rateLimitMs : Z;
  status_beep : class_status;
  status_vibrate : class_status;
  status_shock : class_status
}.

(** [lastActionTime[type]] *)
Definition read_lastActionTime (type : string) : M (option Z) :=
  fun _ s => (Ret (lastActionTime s !! type), s).

(** The entry of one class: [checkRateLimit] is called once for [canTrigger]
    and once more for [timeRemaining || 0]. *)
Definition class_status_of (type : string) : M class_status :=
  let! first := checkRateLimit type in
  let! last := read_lastActionTime type in
  let! second := checkRateLimit type in
  ret (mkClassStatus (RateLimiter.allowed first)
         (match last with
          | Some l => if 0 <? l then Some l else None
          | None => None
          end)
         (match RateLimiter.timeRemaining second with
          | Some n => if n =? 0 then 0 else n
          | None => 0
          end)).

(** [getRateLimitStatus(req, res)] *)
Definition getRateLimitStatus : M rate_status :=
  let! now := Date_now in
  let! b := class_status_of "beep" in
  let! v := class_status_of "vibrate" in
  let! s := class_status_of "shock" in
  ret (mkRateStatus RateLimiter.RATE_LIMIT_MS b v s).

(** The status a trigger endpoint answers with after the POST to the device
    settled this way: [_handleError] of the client followed by
    [error.status || 500] of the controller. *)
Definition reported_status (r : http_result) : Z :=
  match r with
  | HttpOk => 200
  | HttpErrorResponse st _ =>
      if (st =? 401) || (st =? 403) then 401
      else if st =? 0 then 500 else st
  | HttpErrorNoData st _ =>
      if (st =? 401) || (st =? 403) then 401
      else if st =? 404 then 404
      else 500
  | HttpNoResponse => 500
  end.

End Pavlok.

(** ** The shared cache (shared/middleware/cache.js) *)

Module Cache.

(** CacheEntry of the data model: the value and the instant it expires
    (milliseconds, like [Date.now()]). *)
Record CacheEntry (V : Type) : Type := mkEntry {
  value : V;
  expiresAt : Z
}.
Arguments mkEntry {V} value expiresAt.
Arguments value {V} c.
Arguments expiresAt {V} c.

(** Modelled from the spec: the store behind [cache] is the NodeCache
    library, which is not part of the repository.  A read returns the value
    of a held entry unless [now >= expiresAt], in which case it is absent. *)
Definition get {V} (c : gmap string (CacheEntry V)) (key : string) (now : Z)
    : option V :=
  match c !! key with
  | Some e => if expiresAt e <=? now then None else Some (value e)
  | None => None
  end.

(** Modelled from the spec: [set(key, value, ttlSeconds)] of the NodeCache
    library; the entry expires [ttl] seconds after the write, and a second
    write of the key replaces the value and the expiry. *)
Definition set {V} (c : gmap string (CacheEntry V)) (key : string) (v : V)
    (ttl : Z) (now : Z) : gmap string (CacheEntry V) :=
  <[key := mkEntry v (now + 1000 * ttl)]> c.

(** Modelled from the spec: [del(key)] of the NodeCache library removes the
    entry of the key. *)
Definition del {V} (c : gmap string (CacheEntry V)) (key : string)
    : gmap string (CacheEntry V) :=
  delete key c.

(** How an awaited fetch settles. *)
Inductive settled (A : Type) : Type :=
| Fulfilled (v : A)
| Rejected (reason : string).
Arguments Fulfilled {A} v.
Arguments Rejected {A} reason.

(** [{ data, fromCache }] *)
Record cached_or_fetched : Type := mkResult {
  data : jsval;
  fromCache : bool
}.

(** What a call of [getCachedOrFetch] leaves behind: how it settles, the
    cache afterwards and how many times it called [fetchFn]. *)
Record run (A : Type) : Type := mkRun {
  result : settled A;
  cache_after : gmap string (CacheEntry jsval);
  fetch_calls : nat
}.
Arguments mkRun {A} result cache_after fetch_calls.
Arguments result {A} r.
Arguments cache_after {A} r.
Arguments fetch_calls {A} r.

(** [getCachedOrFetch(cacheKey, duration, fetchFn)] (strava/controller.js).
    [now] is the time of the read, [fetched] how [fetchFn()] settles when it
    is called and [now'] the time after the await, when the result is
    written. *)
Definition getCachedOrFetch (c : gmap string (CacheEntry jsval))
    (cacheKey : string) (duration : Z) (fetched : settled jsval)
    (now now' : Z) : run cached_or_fetched :=
  let cached := match get c cacheKey now with
                | Some v => v
                | None => VUndefined
                end in
  if truthy cached then mkRun (Fulfilled (mkResult cached true)) c 0%nat
  else
    match fetched with
    | Fulfilled data =>
        mkRun (Fulfilled (mkResult data false))
              (set c cacheKey data duration now') 1%nat
    | Rejected reason => mkRun (Rejected reason) c 1%nat
    end.

(** Modelled from the spec: [keys()] of the NodeCache library lists the keys
    the store holds. *)
Definition keys {V} (c : gmap string (CacheEntry V)) : list string :=
  (map_to_list c).*1.

(** Modelled from the spec: [del(keys)] of the NodeCache library with an
    array removes the entry of every key of the array. *)
Definition del_list {V} (c : gmap string (CacheEntry V)) (ks : list string)
    : gmap string (CacheEntry V) :=
  foldr delete c ks.

(** What [cacheMiddleware] reads of the request. *)
Record request : Type := mkRequest {
  method : string;
  originalUrl : option string;
  url : string
}.

(** What the middleware does with a request: it answers with the cached
    body, or it calls [next()], having replaced [res.json] by a function that
    caches the body under a key for a duration ([Some]) or having left it
    alone ([None]). *)
Inductive passed : Type :=
| Respond (body : jsval)
| Next (caching : option (string * Z)).

(** [req.originalUrl || req.url] *)
Definition request_url (req : request) : string :=
  match originalUrl req with
  | Some u => if String.eqb u "" then url req else u
  | None => url req
  end.

(** [cacheMiddleware(duration)(req, res, next)] *)
Definition cacheMiddleware (duration : Z) (c : gmap string (CacheEntry jsval))
    (req : request) (now : Z) : passed :=
  if negb (String.eqb (method req) "GET") then Next None
  else
    let key := "__express__" +:+ request_url req in
    let cachedResponse := match get c key now with
                          | Some v => v
                          | None => VUndefined
                          end in
    if truthy cachedResponse then Respond cachedResponse
    else Next (Some (key, duration)).

(** [res.json(body)] as the handler behind the middleware calls it: the
    replaced function caches the body first. *)
Definition res_json (caching : option (string * Z))
    (c : gmap string (CacheEntry jsval)) (body : jsval) (now : Z)
    : gmap string (CacheEntry jsval) :=
  match caching with
  | Some (key, duration) => set c key body duration now
  | None => c
  end.

End Cache.

(** ** Strava client with token refresh (strava/client.js, tokenStore.js) *)

Module Strava.

Definition TOKEN_REFRESH_BUFFER : Z := 300.

(** The record of [.strava-tokens.json]. *)
Record tokens : Type := mkTokens {
  access_token : string;
  refresh_token : string;
  expires_at : Z
}.

(** The fields of a [StravaClient]; a client built from an explicit token
    leaves [refreshToken] and [expiresAt] undefined.  [authorization] is the
    bearer token of the axios client [_initializeClient] builds. *)
Record StravaClient : Type := mkClient {
  accessToken : string;
  refreshToken : option string;
  expiresAt : option Z;
  manualToken : bool;
  authorization : string
}.

(** Input and output of the client, in order: a POST to the token URL with
    the [refresh_token] it carries, a write of the token file, a GET of the
    API with its bearer token. *)
Inductive io : Type :=
| IoRefresh (carried : option string)
| IoSave (t : tokens)
| IoGet (path : string) (bearer : string).

Record world : Type := mkWorld {
  file : option tokens;
  trace : list io
}.

Inductive result (A : Type) : Type :=
| Ok (a : A)
| Err (message : string).
Arguments Ok {A} a.
Arguments Err {A} message.

(** How the POST to the token URL settles. *)
Inductive post_result : Type :=
| PostOk (t : tokens)
| PostFail.

Definition reauthorize : string :=
  "Token refresh failed. You may need to re-authorize: node services/strava/oauth-setup.js".

(** [loadTokens()] *)
Definition loadTokens (w : world) : option tokens := file w.

(** [saveTokens(tokenData)]; [write_ok] tells whether [writeFileSync]
    succeeds, and a failure is rethrown. *)
Definition saveTokens (tokenData : tokens) (write_ok : bool) (w : world)
    : result unit * world :=
  if write_ok
  then (Ok tt, mkWorld (Some tokenData) (trace w ++ [IoSave tokenData]))
  else (Err "write failed", w).

(** [new StravaClient(accessToken)] *)
Definition new_StravaClient (explicit : option string) (w : world)
    : result StravaClient :=
  match explicit with
  | Some t =>
      if String.eqb t "" then
        match loadTokens w with
        | None => Err "Strava tokens not found. Run: node services/strava/oauth-setup.js"
        | Some tk =>
            Ok (mkClient (access_token tk) (Some (refresh_token tk))
                  (Some (expires_at tk)) false (access_token tk))
        end
      else Ok (mkClient t None None true t)
  | None =>
      match loadTokens w with
      | None => Err "Strava tokens not found. Run: node services/strava/oauth-setup.js"
      | Some tk =>
          Ok (mkClient (access_token tk) (Some (refresh_token tk))
                (Some (expires_at tk)) false (access_token tk))
      end
  end.

(** The test of [_ensureValidToken]: not a manual token, and
    [this.expiresAt - Math.floor(Date.now() / 1000) < TOKEN_REFRESH_BUFFER]
    (false when [expiresAt] is undefined, the difference being NaN). *)
Definition needs_refresh (c : StravaClient) (nowMs : Z) : bool :=
  if manualToken c then false
  else
    let now := nowMs / 1000 in
    match expiresAt c with
    | Some ex =>
        let timeUntilExpiry := ex - now in
        timeUntilExpiry <? TOKEN_REFRESH_BUFFER
    | None => false
    end.

(** [_refreshToken] up to its await: the POST leaves with the refresh token
    the client holds now. *)
Definition refresh_send (c : StravaClient) (w : world) : world :=
  mkWorld (file w) (trace w ++ [IoRefresh (refreshToken c)]).

(** [_refreshToken] after its await: on a response the tokens are saved,
    then the fields replaced and the axios client rebuilt; a rejected POST
    or a failed save is rethrown as the re-authorization error. *)
Definition refresh_receive (c : StravaClient) (w : world) (resp : post_result)
    (write_ok : bool) : result unit * StravaClient * world :=
  match resp with
  | PostOk tokenData =>
      match saveTokens tokenData write_ok w with
      | (Ok _, w') =>
          (Ok tt,
           mkClient (access_token tokenData) (Some (refresh_token tokenData))
             (Some (expires_at tokenData)) (manualToken c)
             (access_token tokenData),
           w')
      | (Err _, w') => (Err reauthorize, c, w')
      end
  | PostFail => (Err reauthorize, c, w)
  end.

(** [_refreshToken()] run without interleaving. *)
Definition _refreshToken (c : StravaClient) (w : world) (resp : post_result)
    (write_ok : bool) : result unit * StravaClient * world :=
  refresh_receive c (refresh_send c w) resp write_ok.

(** [_ensureValidToken()] run without interleaving. *)
Definition _ensureValidToken (c : StravaClient) (w : world) (nowMs : Z)
    (resp : post_result) (write_ok : bool)
    : result unit * StravaClient * world :=
  if needs_refresh c nowMs then _refreshToken c w resp write_ok
  else (Ok tt, c, w).

(** [getAthlete()]: the token check comes first and its error leaves the
    method; then the GET, whose error [_handleError] rethrows formatted
    ([api] carries the formatted message). *)
Definition getAthlete (c : StravaClient) (w : world) (nowMs : Z)
    (resp : post_result) (write_ok : bool) (api : result jsval)
    : result jsval * StravaClient * world :=
  match _ensureValidToken c w nowMs resp write_ok with
  | (Err m, c', w') => (Err m, c', w')
  | (Ok _, c', w') =>
      (api, c', mkWorld (file w') (trace w' ++ [IoGet "/athlete" (authorization c')]))
  end.

(** *** Interleaved callers

    The event loop runs a caller until it awaits.  A caller of
    [_ensureValidToken] awaits only inside [_refreshToken], on the POST; the
    rest of [_refreshToken] runs when that POST settles. *)

Inductive caller : Type :=
| Waiting (req : nat)
| Done (token : string)
| Failed (msg : string).

(** A POST to the token URL: the client that sent it, the refresh token it
    carries and whether it is still in flight. *)
Record request : Type := mkRequest {
  sender : nat;
  carried : option string;
  in_flight : bool
}.

Record sys : Type := mkSys {
  sworld : world;
  clients : list StravaClient;
  requests : list request;
  callers : list caller
}.

Inductive ev : Type :=
| Create
| Call (c : nat) (nowMs : Z)
| Settle (r : nat) (resp : post_result) (write_ok : bool).

(** A caller waiting on request [r] learns how it ended. *)
Definition wake (r : nat) (res : result unit) (tok : string) (k : caller)
    : caller :=
  match k with
  | Waiting r' =>
      if Nat.eqb r r' then
        match res with Ok _ => Done tok | Err m => Failed m end
      else k
  | _ => k
  end.

Definition step (s : sys) (e : ev) : sys :=
  match e with
  | Create =>
      match new_StravaClient None (sworld s) with
      | Ok c => mkSys (sworld s) (clients s ++ [c]) (requests s) (callers s)
      | Err _ => s
      end
  | Call ci nowMs =>
      match clients s !! ci with
      | Some c =>
          if needs_refresh c nowMs then
            mkSys (refresh_send c (sworld s)) (clients s)
              (requests s ++ [mkRequest ci (refreshToken c) true])
              (callers s ++ [Waiting (length (requests s))])
          else
            mkSys (sworld s) (clients s) (requests s)
              (callers s ++ [Done (accessToken c)])
      | None => s
      end
  | Settle r resp write_ok =>
      match requests s !! r with
      | Some rq =>
          if in_flight rq then
            match clients s !! sender rq with
            | Some c =>
                let '(res, c', w') :=
                  refresh_receive c (sworld s) resp write_ok in
                mkSys w' (<[sender rq := c']> (clients s))
                  (<[r := mkRequest (sender rq) (carried rq) false]> (requests s))
                  (wake r res (accessToken c') <$> callers s)
            | None => s
            end
          else s
      | None => s
      end
  end.

Definition run (s : sys) (es : list ev) : sys := foldl step s es.

(** The POSTs that have left and not settled. *)
Definition pending (s : sys) : list request :=
  filter (fun rq => in_flight rq = true) (requests s).

(** A batch of calls, each given by the client it is made on and the
    reading of [Date.now()]; the request such a call sends when the client
    holds the refresh token [rt]; and the condition that the call finds a
    client inside the refresh buffer holding [rt]. *)
Definition call_of (p : nat * Z) : ev := Call p.1 p.2.

Definition request_of (rt : option string) (p : nat * Z) : request :=
  mkRequest p.1 rt true.

Definition may_refresh (s : sys) (rt : option string) (p : nat * Z) : Prop :=
  ∃ c, clients s !! p.1 = Some c ∧ needs_refresh c p.2 = true
       ∧ refreshToken c = rt.

(** Sample inputs: the token file holds a token that expires at second
    1000; two answers of the token endpoint; the process before any client
    exists; a client loaded from the file and one built from an explicit
    token. *)
Definition tk0 : tokens := mkTokens "a0" "r0" 1000.
Definition tk1 : tokens := mkTokens "a1" "r1" 30000.
Definition tk2 : tokens := mkTokens "a2" "r2" 30000.
Definition w0 : world := mkWorld (Some tk0) [].
Definition boot : sys := mkSys w0 [] [] [].
Definition c0 : StravaClient := mkClient "a0" (Some "r0") (Some 1000) false "a0".

(** *** Sequential use *)



(** *** API methods *)

(** The [Error] an API method throws: the message, and the fields
    [_handleError] attaches. *)
Record api_error : Type := mkApiError {
  e_message : string;
  e_status : option Z;
  e_rateLimitExceeded : bool;
  e_needsRefresh : bool;
  e_originalError : option string
}.

(** What the [catch] of an API method receives: an axios error with a
    response (its status and the [message] of its data, or its status alone
    when the data is [null] or [undefined]), or an error without one, of
    which only the message is read. *)
Inductive thrown : Type :=
| WithResponse (st : Z) (data_message : option string)
| WithResponseNoData (st : Z) (data : nullish)
| WithoutResponse (msg : string).

(** How a GET of the API settles. *)
Inductive get_result : Type :=
| GetOk (data : jsval)
| GetFailed (t : thrown).

Inductive aresult (A : Type) : Type :=
| AOk (a : A)
| AErr (e : api_error).
Arguments AOk {A} a.
Arguments AErr {A} e.

(** A plain [new Error(message)]. *)
Definition plain (msg : string) : api_error :=
  mkApiError msg None false false None.

(** [_handleError(error, message)]: always throws.  For a status other
    than 429, 401 and 404 it reads [stravaError.message]; when the data of
    the response is [null] or [undefined] that read throws a TypeError, which
    leaves the method in place of the formatted error. *)
Definition _handleError (error : thrown) (msg : string) : api_error :=
  match error with
  | WithResponse st data_message =>
      if st =? 429
      then mkApiError "Strava API rate limit exceeded" (Some 429) true false None
      else if st =? 401
      then mkApiError "Invalid or expired Strava access token" (Some 401) false true None
      else if st =? 404
      then mkApiError "Resource not found" (Some 404) false false None
      else mkApiError
             (match data_message with
              | Some m => if String.eqb m "" then msg else m
              | None => msg
              end)
             (Some st) false false None
  | WithResponseNoData st data =>
      if st =? 429
      then mkApiError "Strava API rate limit exceeded" (Some 429) true false None
      else if st =? 401
      then mkApiError "Invalid or expired Strava access token" (Some 401) false true None
      else if st =? 404
      then mkApiError "Resource not found" (Some 404) false false None
      else plain (cannot_read data "message")
  | WithoutResponse original => mkApiError msg (Some 500) false false (Some original)
  end.

(** The network as the client meets it: the answer of the token endpoint to
    a refresh token, whether the token file can be written, the answer of
    the API to a GET of a path with a bearer token, and how [athlete.id]
    renders inside a path. *)
Record net : Type := mkNet {
  token_endpoint : option string → post_result;
  can_write : bool;
  api_get : string → string → get_result;
  render_id : jsval → string
}.

(** [await this.client.get(path)] *)
Definition client_get (n : net) (c : StravaClient) (w : world) (path : string)
    : get_result * world :=
  (api_get n path (authorization c),
   mkWorld (file w) (trace w ++ [IoGet path (authorization c)])).

Definition ensure (n : net) (c : StravaClient) (w : world) (nowMs : Z)
    : result unit * StravaClient * world :=
  _ensureValidToken c w nowMs (token_endpoint n (refreshToken c)) (can_write n).

(** [getAthlete()], with the thrown errors in full. *)
Definition api_getAthlete (n : net) (c : StravaClient) (w : world) (nowMs : Z)
    : aresult jsval * StravaClient * world :=
  match ensure n c w nowMs with
  | (Err m, c', w') => (AErr (plain m), c', w')
  | (Ok _, c', w') =>
      match client_get n c' w' "/athlete" with
      | (GetOk d, w'') => (AOk d, c', w'')
      | (GetFailed t, w'') =>
          (AErr (_handleError t "Failed to fetch athlete profile"), c', w'')
      end
  end.

(** [getAthleteStats(athleteId)]; [nowMs'] is the reading of the clock when
    the nested [getAthlete()] runs.  Reading [id] of a null or undefined
    athlete throws a TypeError inside the [try]. *)
Definition api_getAthleteStats (n : net) (c : StravaClient) (w : world)
    (nowMs nowMs' : Z) (athleteId : string)
    : aresult jsval * StravaClient * world :=
  match ensure n c w nowMs with
  | (Err m, c1, w1) => (AErr (plain m), c1, w1)
  | (Ok _, c1, w1) =>
      let failed := "Failed to fetch athlete stats" in
      let '(id, c2, w2) :=
        if String.eqb athleteId "current" then
          match api_getAthlete n c1 w1 nowMs' with
          | (AOk athlete, c2, w2) =>
              (match athlete with
               | VNull => inr (WithoutResponse (cannot_read Null "id"))
               | VUndefined => inr (WithoutResponse (cannot_read Undefined "id"))
               | _ => inl (render_id n athlete)
               end, c2, w2)
          | (AErr e, c2, w2) => (inr (WithoutResponse (e_message e)), c2, w2)
          end
        else (inl athleteId, c1, w1) in
      match id with
      | inr t => (AErr (_handleError t failed), c2, w2)
      | inl id =>
          match client_get n c2 w2 ("/athletes/" +:+ id +:+ "/stats") with
          | (GetOk d, w3) => (AOk d, c2, w3)
          | (GetFailed t, w3) => (AErr (_handleError t failed), c2, w3)
          end
      end
  end.

(** *** Normalization *)

(** A raw activity of the API, by the fields [normalizeActivity] reads;
    [a_id] is the id as [toString()] renders it, absent when the id is null
    or undefined. *)
Record activity : Type := mkActivity {
  a_id : option string;
  a_name : jsval;
  a_type : jsval;
  a_sport_type : jsval;
  a_start_date : jsval;
  a_start_date_local : jsval;
  a_distance : jsval;
  a_moving_time : jsval;
  a_elapsed_time : jsval;
  a_total_elevation_gain : jsval;
  a_average_speed : jsval;
  a_max_speed : jsval;
  a_average_heartrate : jsval;
  a_max_heartrate : jsval;
  a_calories : jsval
}.

Record normalized : Type := mkNormalized {
  n_id : option string;
  n_name : jsval;
  n_type : jsval;
  n_date : jsval;
  n_distance : jsval;
  n_duration : jsval;
  n_elevation_gain : jsval;
  n_average_speed : jsval;
  n_max_speed : jsval;
  n_average_heartrate : jsval;
  n_max_heartrate : jsval;
  n_calories : jsval;
  n_source : string
}.

(** [normalizeActivity(activity)] *)
Definition normalizeActivity (a : activity) : normalized :=
  mkNormalized (a_id a) (a_name a)
    (js_or (a_type a) (a_sport_type a))
    (js_or (a_start_date a) (a_start_date_local a))
    (js_or (a_distance a) (VInt 0))
    (js_or (js_or (a_moving_time a) (a_elapsed_time a)) (VInt 0))
    (js_or (a_total_elevation_gain a) (VInt 0))
    (js_or (a_average_speed a) (VInt 0))
    (js_or (a_max_speed a) (VInt 0))
    (js_or (a_average_heartrate a) VNull)
    (js_or (a_max_heartrate a) VNull)
    (js_or (a_calories a) VNull)
    "strava".

(** [normalizeActivities(activities)]; [None] is a value that is not an
    array. *)
Definition normalizeActivities (activities : option (list activity))
    : list normalized :=
  match activities with
  | None => []
  | Some l => normalizeActivity <$> l
  end.

(** Sample inputs: a network whose API answers 429 to every GET, and one
    that answers every refresh with [tk1] and every GET with an athlete. *)
Definition net_limited : net :=
  mkNet (fun _ => PostOk tk1) true
    (fun _ _ => GetFailed (WithResponse 429 None)) (fun _ => "7").

Definition net_fine : net :=
  mkNet (fun _ => PostOk tk1) true (fun _ _ => GetOk (VObj "athlete"))
    (fun _ => "7").

End Strava.

(** ** Strava controller (strava/controller.js) *)

Module StravaController.

Import Cache Strava.

(** The JSON the handlers send: a success, or the body [handleError]
    builds with its status. *)
Inductive response : Type :=
| Json200 (fromCache : bool) (data : jsval)
| JsonFail (status : Z) (err : string) (msg : string)
    (rateLimitExceeded needsRefresh : bool) (retryAfter : option string).

(** [handleError(res, error, message)] *)
Definition handleError (error : api_error) (message : string) : response :=
  let status := match e_status error with
                | Some st => if st =? 0 then 500 else st
                | None => 500
                end in
  let msg := e_message error in
  let msg := if e_rateLimitExceeded error
             then "Strava API rate limit exceeded. Limits: 200 requests per 15 minutes, 2000 per day"
             else msg in
  let msg := if e_needsRefresh error
             then "Strava access token needs to be refreshed. Run: node services/strava/oauth-setup.js"
             else msg in
  JsonFail status message msg (e_rateLimitExceeded error) (e_needsRefresh error)
    (if e_rateLimitExceeded error then Some "15 minutes" else None).

(** How a call of an API method settles, as [getCachedOrFetch] awaits it. *)
Definition settle (r : aresult jsval) : settled jsval :=
  match r with
  | AOk d => Fulfilled d
  | AErr e => Rejected (e_message e)
  end.

(** [getAthlete(req, res)]: the client is built first, then the cache is
    asked, and [stravaClient.getAthlete()] runs only if [getCachedOrFetch]
    calls its fetch function.  [now] is the reading of the clock at the
    request and [now'] the one after the fetch. *)
Definition getAthlete (n : net) (w : world) (c : gmap string (CacheEntry jsval))
    (now now' : Z) : response * world * gmap string (CacheEntry jsval) :=
  let failed := "Failed to fetch athlete profile" in
  match new_StravaClient None w with
  | Err m => (handleError (plain m) failed, w, c)
  | Ok stravaClient =>
      let '(fetched, _, w') := api_getAthlete n stravaClient w now in
      let r := getCachedOrFetch c "strava:athlete" (60 * 60) (settle fetched)
                 now now' in
      let w'' := if (fetch_calls r =? 0)%nat then w else w' in
      match Cache.result r with
      | Fulfilled res => (Json200 (fromCache res) (data res), w'', cache_after r)
      | Rejected m =>
          (handleError (match fetched with AErr e => e | AOk _ => plain m end) failed,
           w'', cache_after r)
      end
  end.

End StravaController.

(** ** Unified dashboard (unified/controller.js) *)

Module Unified.

Import Cache.

(** [const CACHE_DURATION = 5 * 60] *)
Definition CACHE_DURATION : Z := 5 * 60.

(** The normalized task of the aggregator. *)
Record Task : Type := mkTask {
  t_id : string;
  t_title : string;
  t_due : option string;
  t_completed : bool;
  t_priority : Z;
  t_source : string;
  t_project : string;
  t_labels : list string
}.

(** [{ service, error }] *)
Record ErrorEntry : Type := mkErrorEntry {
  service : string;
  error : string
}.

Section Handlers.

(** Calendar events and fitness activities pass through the handlers
    unread. *)
Context {Event Activity : Type}.

(** What [calculateFitnessSummary] returns, as far as the handlers read
    it. *)
Record FitnessSummary : Type := mkFitnessSummary {
  activities_count : jsval;
  total_distance : jsval;
  total_duration : jsval;
  last_activity : option Activity
}.

(** The helpers of unified/aggregator.js, which the controller imports, and
    the date functions of the runtime: [isoDate t] is
    [new Date(t).toISOString().split('T')[0]] and [js_Date s] is
    [new Date(s).getTime()], absent when that is NaN. *)
Variable filterTasks : list Task → string → jsval → list Task.
Variable sortTasks : list Task → list Task.
Variable calculateFitnessSummary : list Activity → FitnessSummary.
Variable getCurrentWeekDates : Z → Z * Z.
Variable isoDate : Z → string.
Variable js_Date : string → option Z.

Record TodayTasks : Type := mkTodayTasks {
  due_today : list Task;
  overdue : list Task;
  completed_today : list Task
}.

Record TodayFitness : Type := mkTodayFitness {
  activities_this_week : jsval;
  today_total_distance : jsval;
  today_total_duration : jsval;
  today_last_activity : option Activity
}.

Record TodaySummary : Type := mkTodaySummary {
  today_total_events : nat;
  today_total_tasks : nat;
  completed_tasks : nat;
  today_fitness_activities : jsval
}.

(** The merged result of [getToday]; [today_errors] is [None] when the
    object has no [errors] key. *)
Record TodayResult : Type := mkTodayResult {
  date : string;
  today_events : list Event;
  today_tasks : TodayTasks;
  today_fitness : TodayFitness;
  today_summary : TodaySummary;
  today_errors : option (list ErrorEntry)
}.

Record WeekFitness : Type := mkWeekFitness {
  week_activities_count : jsval;
  week_total_distance : jsval;
  week_total_duration : jsval;
  activities : list Activity
}.

Record WeekSummary : Type := mkWeekSummary {
  week_total_events : nat;
  week_total_tasks : nat;
  week_fitness_activities : jsval
}.

Record WeekResult : Type := mkWeekResult {
  week : string * string;
  week_events : list Event;
  week_tasks : list Task;
  week_fitness : WeekFitness;
  week_summary : WeekSummary;
  week_errors : option (list ErrorEntry)
}.

(** What the unified handlers keep in the shared cache. *)
Inductive aggregate : Type :=
| Today (r : TodayResult)
| Week (r : WeekResult).

(** [res.json({ success: true, fromCache, ...result })], or the 500 of the
    handler's [catch], which is reached only if a helper of the aggregator
    throws; the helpers are taken to return. *)
Inductive response : Type :=
| Json200 (fromCache : bool) (r : aggregate)
| Json500 (err : string) (msg : string).

(** [...(errors.length > 0 && { errors })] *)
Definition errors_key (errors : list ErrorEntry) : option (list ErrorEntry) :=
  match errors with
  | [] => None
  | _ => Some errors
  end.

(** [getToday(req, res)].  [now] is the time of the cache read, the three
    [settled] values are what [Promise.allSettled] resolves to, and [now']
    is the time of the cache write.  A rejection reason is an [Error], read
    through its [message]. *)
Definition getToday (c : gmap string (CacheEntry aggregate)) (now : Z)
    (calendarEvents : settled (list Event)) (allTasks : settled (list Task))
    (stravaActivities : settled (list Activity)) (now' : Z)
    : response * gmap string (CacheEntry aggregate) :=
  let cacheKey := "unified:today" in
  match get c cacheKey now with
  | Some cached => (Json200 true cached, c)
  | None =>
      let today := isoDate now in
      let errors : list ErrorEntry := [] in
      let events := match calendarEvents with
                    | Fulfilled v => v
                    | Rejected _ => []
                    end in
      let errors := match calendarEvents with
                    | Rejected m => (errors ++ [mkErrorEntry "calendar" m])%list
                    | Fulfilled _ => errors
                    end in
      let tasks := mkTodayTasks [] [] [] in
      let '(tasks, errors) :=
        match allTasks with
        | Fulfilled taskList =>
            (mkTodayTasks
               (sortTasks (filterTasks taskList "today" (VBool false)))
               (sortTasks (filterTasks taskList "overdue" (VBool false)))
               (List.filter
                  (fun t =>
                     if negb (t_completed t) then false
                     else (0 <? length (filterTasks [t] "today" VUndefined))%nat)
                  taskList),
             errors)
        | Rejected m => (tasks, (errors ++ [mkErrorEntry "todoist" m])%list)
        end in
      let fitness := mkTodayFitness (VInt 0) (VInt 0) (VInt 0) None in
      let '(fitness, errors) :=
        match stravaActivities with
        | Fulfilled activities =>
            let summary := calculateFitnessSummary activities in
            (mkTodayFitness (activities_count summary) (total_distance summary)
               (total_duration summary) (last_activity summary),
             errors)
        | Rejected m => (fitness, (errors ++ [mkErrorEntry "strava" m])%list)
        end in
      let result :=
        mkTodayResult today events tasks fitness
          (mkTodaySummary (length events)
             (length (due_today tasks) + length (overdue tasks))%nat
             (length (completed_today tasks))
             (activities_this_week fitness))
          (errors_key errors) in
      (Json200 false (Today result), set c cacheKey (Today result) CACHE_DURATION now')
  end.


End Handlers.

(** Whether a source failed, and the entry it then adds to [errors]. *)
Definition is_rejected {A} (r : settled A) : bool :=
  match r with Rejected _ => true | Fulfilled _ => false end.

Definition rejection {A} (service : string) (r : settled A) : list ErrorEntry :=
  match r with
  | Rejected m => [mkErrorEntry service m]
  | Fulfilled _ => []
  end.

(** Sample helpers over events and activities named by strings: no
    filtering, no sorting, a summary that counts. *)
Definition sample_filterTasks (l : list Task) (filter : string) (completed : jsval)
    : list Task := l.

Definition sample_sortTasks (l : list Task) : list Task := l.

Definition sample_summary (l : list string) : @FitnessSummary string :=
  mkFitnessSummary (VInt (Z.of_nat (length l))) (VInt 0) (VInt 0) (head l).

Definition sample_isoDate (t : Z) : string := "2025-01-06".





Section MoreHandlers.

Context {Activity : Type}.

Variable filterTasks : list Task → string → jsval → list Task.
Variable sortTasks : list Task → list Task.
Variable calculateFitnessSummary : list Activity → @FitnessSummary Activity.

(** [{ activities_count, total_distance, total_duration }] *)
Record PeriodSummary : Type := mkPeriodSummary {
  period_activities_count : jsval;
  period_total_distance : jsval;
  period_total_duration : jsval
}.

(** [{ period, error }] *)
Record PeriodError : Type := mkPeriodError {
  period : string;
  period_error : string
}.

(** The result of [getFitnessSummary]; [fitness_errors] is [None] when the
    object has no [errors] key. *)
Record FitnessResult : Type := mkFitnessResult {
  last_7_days : PeriodSummary;
  last_30_days : PeriodSummary;
  recent_activities : list Activity;
  fitness_errors : option (list PeriodError)
}.

Inductive fitness_response : Type :=
| Fitness200 (fromCache : bool) (r : FitnessResult)
| Fitness500 (err : string) (msg : string).

Definition summary_of (acts : list Activity) : PeriodSummary :=
  mkPeriodSummary (activities_count (calculateFitnessSummary acts))
    (total_distance (calculateFitnessSummary acts))
    (total_duration (calculateFitnessSummary acts)).

(** [getFitnessSummary(req, res)], with the conventions of [getToday]. *)
Definition getFitnessSummary (c : gmap string (CacheEntry FitnessResult))
    (now : Z) (last7Days last30Days : settled (list Activity)) (now' : Z)
    : fitness_response * gmap string (CacheEntry FitnessResult) :=
  let cacheKey := "unified:fitness" in
  match get c cacheKey now with
  | Some cached => (Fitness200 true cached, c)
  | None =>
      let zero := mkPeriodSummary (VInt 0) (VInt 0) (VInt 0) in
      let '(seven, recent) :=
        match last7Days with
        | Fulfilled activities7 => (summary_of activities7, take 5 activities7)
        | Rejected _ => (zero, [])
        end in
      let thirty :=
        match last30Days with
        | Fulfilled activities30 => summary_of activities30
        | Rejected _ => zero
        end in
      let errors : list PeriodError := [] in
      let errors := match last7Days with
                    | Rejected m => errors ++ [mkPeriodError "7_days" m]
                    | Fulfilled _ => errors
                    end in
      let errors := match last30Days with
                    | Rejected m => errors ++ [mkPeriodError "30_days" m]
                    | Fulfilled _ => errors
                    end in
      let result :=
        mkFitnessResult seven thirty recent
          (match errors with [] => None | _ => Some errors end) in
      (Fitness200 false result, set c cacheKey result CACHE_DURATION now')
  end.

(** [{ filter, count, tasks }] *)
Record TasksResult : Type := mkTasksResult {
  tasks_filter : string;
  tasks_count : nat;
  tasks : list Task
}.

Inductive tasks_response : Type :=
| Tasks200 (fromCache : bool) (r : TasksResult)
| Tasks500 (err : string) (msg : string).

(** The key [getTasks] caches under:
    [`unified:tasks:${filter}:${completed || 'any'}`] with [filter]
    defaulting to ['all'] when the query has none. *)
Definition tasks_cacheKey (filter completed : option string) : string :=
  "unified:tasks:" +:+ default "all" filter +:+ ":"
  +:+ match completed with
      | Some s => if String.eqb s "" then "any" else s
      | None => "any"
      end.

(** [completed === 'true' ? true : completed === 'false' ? false : null] *)
Definition completedFilter (completed : option string) : jsval :=
  match completed with
  | Some s => if String.eqb s "true" then VBool true
              else if String.eqb s "false" then VBool false
              else VNull
  | None => VNull
  end.

(** [getTasks(req, res)]; [filter] and [completed] are the query's strings,
    [None] when absent, and [fetched] is how [fetchTodoistTasks()]
    settles. *)
Definition getTasks (c : gmap string (CacheEntry TasksResult)) (now : Z)
    (filter completed : option string) (fetched : settled (list Task))
    (now' : Z) : tasks_response * gmap string (CacheEntry TasksResult) :=
  let cacheKey := tasks_cacheKey filter completed in
  match get c cacheKey now with
  | Some cached => (Tasks200 true cached, c)
  | None =>
      match fetched with
      | Rejected m => (Tasks500 "Failed to fetch tasks" m, c)
      | Fulfilled allTasks =>
          let filtered :=
            filterTasks allTasks (default "all" filter) (completedFilter completed) in
          let sorted := sortTasks filtered in
          let result := mkTasksResult (default "all" filter) (length sorted) sorted in
          (Tasks200 false result, set c cacheKey result CACHE_DURATION now')
      end
  end.

End MoreHandlers.

End Unified.

(** ** Calendar service (calendar/utils.js, cache.js, routes.js) *)

Module Calendar.

Import Cache.

(** [CALENDAR_CACHE_DURATION] is unset: 15 minutes. *)
Definition CACHE_DURATION : Z := 15 * 60.

Definition CACHE_PREFIX : string := "calendar:events:".

(** An event as the calendar API returns it. *)
Record gevent : Type := mkEvent {
  id : string;
  summary : jsval;
  start : jsval;
  end_ : jsval
}.

(** [req.body] of the write endpoints. *)
Record eventData : Type := mkEventData {
  d_summary : jsval;
  d_start : jsval;
  d_end : jsval;
  d_timeZone : jsval;
  d_description : jsval;
  d_location : jsval;
  d_attendees : jsval;
  d_reminders : jsval
}.

(** [{ dateTime, timeZone }] *)
Record timeRef : Type := mkTimeRef {
  dateTime : jsval;
  timeZone : option jsval
}.

(** The resource [buildEventResource] sends; [None] is a key left out. *)
Record resource : Type := mkResource {
  r_summary : jsval;
  r_start : option timeRef;
  r_end : option timeRef;
  r_description : option jsval;
  r_location : option jsval;
  r_attendees : option jsval;
  r_reminders : option jsval
}.

(** How a call of the calendar API settles; a rejection carries the [code]
    and the [message] of its error. *)
Inductive api_result : Type :=
| ApiOk (data : gevent)
| ApiError (code : option Z) (msg : string).

Inductive response : Type :=
| R201 (eventId : string) (event : gevent)
| R200 (event : gevent)
| R400 (errors : list string)
| R404 (msg : string)
| R500 (err : string) (msg : string).

(** [getCacheKey(dateKey)] *)
Definition getCacheKey (dateKey : string) : string := CACHE_PREFIX +:+ dateKey.

(** [getCachedEvents(dateKey)]: a cached array is always truthy. *)
Definition getCachedEvents (c : gmap string (CacheEntry (list gevent)))
    (dateKey : string) (now : Z) : option (list gevent) :=
  get c (getCacheKey dateKey) now.

(** [setCachedEvents(dateKey, events)] *)
Definition setCachedEvents (c : gmap string (CacheEntry (list gevent)))
    (dateKey : string) (events : list gevent) (now : Z)
    : gmap string (CacheEntry (list gevent)) :=
  set c (getCacheKey dateKey) events CACHE_DURATION now.

(** [clearDateCache(dateKey)] *)
Definition clearDateCache (c : gmap string (CacheEntry (list gevent)))
    (dateKey : string) : gmap string (CacheEntry (list gevent)) :=
  del c (getCacheKey dateKey).

(** [if (v) { o.k = v }] *)
Definition when_truthy (v : jsval) : option jsval :=
  if truthy v then Some v else None.

(** [buildEventResource(eventData)] *)
Definition buildEventResource (eventData : eventData) : resource :=
  mkResource (d_summary eventData)
    (if truthy (d_start eventData)
     then Some (mkTimeRef (d_start eventData) (when_truthy (d_timeZone eventData)))
     else None)
    (if truthy (d_end eventData)
     then Some (mkTimeRef (d_end eventData) (when_truthy (d_timeZone eventData)))
     else None)
    (when_truthy (d_description eventData))
    (when_truthy (d_location eventData))
    (when_truthy (d_attendees eventData))
    (when_truthy (d_reminders eventData)).

Section Handlers.

(** The runtime's date and string functions: [js_Date v] is
    [new Date(v).getTime()], absent when that is NaN; [formatDate] is the
    function of calendar/utils.js applied to the [Date] of that time (local
    year, month and day); [trim] is [String.prototype.trim]. *)
Variable js_Date : jsval → option Z.
Variable formatDate : option Z → string.
Variable trim : string → string.

(** [getDateKey(dateString)] *)
Definition getDateKey (dateString : jsval) : string :=
  formatDate (js_Date dateString).

(** [!eventData.summary || eventData.summary.trim() === ''], which throws a
    TypeError when the summary is truthy and has no [trim]. *)
Definition summary_missing (summary : jsval) : option bool :=
  if negb (truthy summary) then Some true
  else match summary with
       | VStr s => Some (String.eqb (trim s) "")
       | _ => None
       end.

(** [validateEventData(eventData)]: the list of errors, or [None] for the
    TypeError above. *)
Definition validateEventData (eventData : eventData) : option (list string) :=
  match summary_missing (d_summary eventData) with
  | None => None
  | Some missing =>
      let errors : list string :=
        if missing then ["Event summary is required"] else [] in
      let errors :=
        if negb (truthy (d_start eventData))
        then (errors ++ ["Event start time is required"])%list
        else match js_Date (d_start eventData) with
             | None => (errors ++ ["Invalid start time format"])%list
             | Some _ => errors
             end in
      let errors :=
        if negb (truthy (d_end eventData))
        then (errors ++ ["Event end time is required"])%list
        else
          let errors :=
            match js_Date (d_end eventData) with
            | None => (errors ++ ["Invalid end time format"])%list
            | Some _ => errors
            end in
          if truthy (d_start eventData) then
            match js_Date (d_end eventData), js_Date (d_start eventData) with
            | Some endDate, Some startDate =>
                if endDate <=? startDate
                then (errors ++ ["Event end time must be after start time"])%list
                else errors
            | _, _ => errors
            end
          else errors in
      Some errors
  end.

Definition not_initialized : string :=
  "Calendar not initialized. Call initializeGoogleAuth() first.".

Definition type_error : string := "eventData.summary.trim is not a function".

(** The handler of [POST /events].  [initialized] tells whether
    [getCalendar()] finds its instance and [insert] how
    [calendar.events.insert] settles for a resource. *)
Definition post_events (c : gmap string (CacheEntry (list gevent)))
    (initialized : bool) (insert : resource → api_result)
    (eventData : eventData)
    : response * gmap string (CacheEntry (list gevent)) :=
  match validateEventData eventData with
  | None => (R500 "Failed to create event" type_error, c)
  | Some errors =>
      if negb (length errors =? 0)%nat then (R400 errors, c)
      else
        let event := buildEventResource eventData in
        if negb initialized then (R500 "Failed to create event" not_initialized, c)
        else
          match insert event with
          | ApiError _ msg => (R500 "Failed to create event" msg, c)
          | ApiOk data =>
              let eventDate := getDateKey (d_start eventData) in
              let c' := clearDateCache c eventDate in
              (R201 (id data) data, c')
          end
  end.

(** The handler of [PUT /events/:eventId]; [update] is how
    [calendar.events.update] settles for an id and a resource. *)
Definition put_events (c : gmap string (CacheEntry (list gevent)))
    (initialized : bool) (update : string → resource → api_result)
    (eventId : string) (eventData : eventData)
    : response * gmap string (CacheEntry (list gevent)) :=
  match validateEventData eventData with
  | None => (R500 "Failed to update event" type_error, c)
  | Some errors =>
      if negb (length errors =? 0)%nat then (R400 errors, c)
      else
        let event := buildEventResource eventData in
        if negb initialized then (R500 "Failed to update event" not_initialized, c)
        else
          match update eventId event with
          | ApiError code msg =>
              if bool_decide (code = Some 404)
              then (R404 ("Event with ID " +:+ eventId +:+ " not found"), c)
              else (R500 "Failed to update event" msg, c)
          | ApiOk data =>
              let eventDate := getDateKey (d_start eventData) in
              let c' := clearDateCache c eventDate in
              (R200 data, c')
          end
  end.

End Handlers.

(** Sample runtime functions for a process whose time zone is UTC: they
    agree with [new Date(s).getTime()] on the four date-times below and with
    the local date on 6 and 7 January 2025; [trim] on strings without
    surrounding white space is the identity. *)
Definition sample_js_Date (v : jsval) : option Z :=
  match v with
  | VStr s =>
      if String.eqb s "2025-01-06T10:00:00" then Some 1736157600000
      else if String.eqb s "2025-01-06T11:00:00" then Some 1736161200000
      else if String.eqb s "2025-01-07T10:00:00" then Some 1736244000000
      else if String.eqb s "2025-01-07T11:00:00" then Some 1736247600000
      else None
  | VInt n => Some n
  | _ => None
  end.

Definition sample_formatDate (t : option Z) : string :=
  match t with
  | Some t =>
      if (1736121600000 <=? t) && (t <? 1736208000000) then "2025-01-06"
      else if (1736208000000 <=? t) && (t <? 1736294400000) then "2025-01-07"
      else "1970-01-01"
  | None => "NaN-NaN-NaN"
  end.

Definition sample_trim (s : string) : string := s.

(** The event "e1" as cached for 6 January, and the request that moves it
    to 7 January. *)
Definition e1_before : gevent :=
  mkEvent "e1" (VStr "Standup") (VStr "2025-01-06T10:00:00") (VStr "2025-01-06T11:00:00").

Definition e1_after : gevent :=
  mkEvent "e1" (VStr "Standup") (VStr "2025-01-07T10:00:00") (VStr "2025-01-07T11:00:00").

Definition move_e1 : eventData :=
  mkEventData (VStr "Standup") (VStr "2025-01-07T10:00:00")
    (VStr "2025-01-07T11:00:00") VUndefined VUndefined VUndefined VUndefined
    VUndefined.

Definition cache_jan6 : gmap string (CacheEntry (list gevent)) :=
  setCachedEvents ∅ "2025-01-06" [e1_before] 0.

(** A cache holding both days, a new event "e2" on 6 January and the
    request that creates it. *)
Definition cache_two_days : gmap string (CacheEntry (list gevent)) :=
  setCachedEvents cache_jan6 "2025-01-07" [] 0.

Definition e2 : gevent :=
  mkEvent "e2" (VStr "Review") (VStr "2025-01-06T10:00:00") (VStr "2025-01-06T11:00:00").

Definition create_e2 : eventData :=
  mkEventData (VStr "Review") (VStr "2025-01-06T10:00:00")
    (VStr "2025-01-06T11:00:00") VUndefined VUndefined VUndefined VUndefined
    VUndefined.

(** How [calendar.events.list] settles: the [items] of the answer, absent
    when the answer has none, or a rejection with its message. *)
Inductive list_result : Type :=
| ListOk (items : option (list gevent))
| ListFailed (msg : string).

(** [fetchEventsFromGoogle(dateKey)] for a date key that names a day, as
    the routes pass it (a validated parameter or the output of [formatDate]);
    [listing] is how the list call settles for the day's boundaries. *)
Definition fetchEventsFromGoogle (initialized : bool)
    (listing : string → list_result) (dateKey : string)
    : settled (list gevent) :=
  if negb initialized then Rejected not_initialized
  else match listing dateKey with
       | ListOk items => Fulfilled (default [] items)
       | ListFailed msg => Rejected msg
       end.

(** What a call of [getEventsWithCache] leaves behind: how it settles, the
    cache afterwards and how many times it called [fetchEventsFromGoogle]. *)
Record events_run : Type := mkEventsRun {
  events_result : settled (list gevent);
  events_cache : gmap string (CacheEntry (list gevent));
  list_calls : nat
}.

(** [getEventsWithCache(dateKey)]; [now] is the time of the read and [now']
    the time of the write. *)
Definition getEventsWithCache (c : gmap string (CacheEntry (list gevent)))
    (initialized : bool) (listing : string → list_result) (dateKey : string)
    (now now' : Z) : events_run :=
  match getCachedEvents c dateKey now with
  | Some cachedEvents => mkEventsRun (Fulfilled cachedEvents) c 0
  | None =>
      match fetchEventsFromGoogle initialized listing dateKey with
      | Fulfilled events =>
          mkEventsRun (Fulfilled events) (setCachedEvents c dateKey events now') 1
      | Rejected m => mkEventsRun (Rejected m) c 1
      end
  end.

(** [clearAllCalendarCache()] *)
Definition clearAllCalendarCache (c : gmap string (CacheEntry (list gevent)))
    : gmap string (CacheEntry (list gevent)) :=
  let keys := keys c in
  let calendarKeys := List.filter (fun key => String.prefix CACHE_PREFIX key) keys in
  if (0 <? length calendarKeys)%nat then del_list c calendarKeys else c.

(** How [calendar.events.delete] settles. *)
Inductive delete_result : Type :=
| DeleteOk
| DeleteFailed (code : option Z) (msg : string).

Inductive delete_response : Type :=
| D200
| D404 (msg : string)
| D500 (err : string) (msg : string).

(** The handler of [DELETE /events/:eventId]. *)
Definition delete_events (c : gmap string (CacheEntry (list gevent)))
    (initialized : bool) (delete : string → delete_result) (eventId : string)
    : delete_response * gmap string (CacheEntry (list gevent)) :=
  if negb initialized then (D500 "Failed to delete event" not_initialized, c)
  else
    match delete eventId with
    | DeleteOk => (D200, clearAllCalendarCache c)
    | DeleteFailed code msg =>
        if bool_decide (code = Some 404)
        then (D404 ("Event with ID " +:+ eventId +:+ " not found"), c)
        else (D500 "Failed to delete event" msg, c)
    end.

End Calendar.

(** ** Logger (shared/utils/logger.js) *)

Module Logger.

(** [const levelPriority = { error: 0, warn: 1, info: 2, debug: 3 }] *)
Definition levelPriority : gmap string Z :=
  <["error" := 0]> (<["warn" := 1]> (<["info" := 2]> (<["debug" := 3]> ∅))).

(** [process.env.LOG_LEVEL || 'info'] *)
Definition currentLogLevel (LOG_LEVEL : option string) : string :=
  match LOG_LEVEL with
  | Some l => if String.eqb l "" then "info" else l
  | None => "info"
  end.

(** [shouldLog(level)]: a comparison with [undefined] is false. *)
Definition shouldLog (LOG_LEVEL : option string) (level : string) : bool :=
  match levelPriority !! level, levelPriority !! currentLogLevel LOG_LEVEL with
  | Some p, Some q => p <=? q
  | _, _ => false
  end.

End Logger.

(** ** API key check (shared/middleware/auth.js) *)

Module Auth.

(** The headers the middleware reads; [None] is a header the request does
    not carry. *)
Record headers : Type := mkHeaders {
  x_api_key : option string;
  authorization : option string
}.

(** [s.replace(pat, '')] with a string pattern: the first occurrence of
    [pat] is removed. *)
Fixpoint remove_first (pat s : string) : string :=
  if String.prefix pat s
  then String.substring (String.length pat) (String.length s - String.length pat) s
  else match s with
       | EmptyString => EmptyString
       | String a rest => String a (remove_first pat rest)
       end.

(** [req.headers['x-api-key'] || req.headers['authorization']?.replace('Bearer ', '')];
    [None] is [undefined]. *)
Definition presented (h : headers) : option string :=
  match x_api_key h with
  | Some k => if String.eqb k ""
              then remove_first "Bearer " <$> authorization h
              else Some k
  | None => remove_first "Bearer " <$> authorization h
  end.

Definition falsy (o : option string) : bool :=
  match o with
  | Some s => String.eqb s ""
  | None => true
  end.

Inductive verdict : Type :=
| Proceed
| Refuse (status : Z) (err : string).

(** [authenticateApiKey(req, res, next)]; [API_KEY] is [process.env.API_KEY]. *)
Definition authenticateApiKey (API_KEY : option string) (h : headers) : verdict :=
  let apiKey := presented h in
  if falsy apiKey then Refuse 401 "API key is required"
  else
    let validApiKey := API_KEY in
    if falsy validApiKey then Refuse 500 "Server configuration error"
    else if bool_decide (apiKey = validApiKey) then Proceed
    else Refuse 403 "Invalid API key".

(** [optionalAuth(req, res, next)] always calls [next()]; this is whether the
    value it leaves in [req.isAuthenticated] is truthy. *)
Definition optionalAuth (API_KEY : option string) (h : headers) : bool :=
  let apiKey := presented h in
  let validApiKey := API_KEY in
  negb (falsy apiKey) && bool_decide (apiKey = validApiKey).

End Auth.

(** ** Pagination of the memory routes (memory/validation.js) *)

Module MemoryValidation.

(** What [parseInt] returns: NaN, an integer, or an infinity (for a run of
    digits beyond the range of a double). *)
Inductive parsed : Type :=
| PNaN
| PInt (n : Z)
| PInf (negative : bool).

Definition p_truthy (p : parsed) : bool :=
  match p with
  | PNaN => false
  | PInt n => negb (n =? 0)
  | PInf _ => true
  end.

(** [p || d] *)
Definition p_or (p : parsed) (d : Z) : parsed :=
  if p_truthy p then p else PInt d.

(** [p > k] and [p < k]; a comparison with NaN is false. *)
Definition p_gt (p : parsed) (k : Z) : bool :=
  match p with
  | PNaN => false
  | PInt n => k <? n
  | PInf negative => negb negative
  end.

Definition p_lt (p : parsed) (k : Z) : bool :=
  match p with
  | PNaN => false
  | PInt n => n <? k
  | PInf negative => negative
  end.

(** [{ limit, skip }] *)
Record page : Type := mkPage {
  p_limit : parsed;
  p_skip : parsed
}.

(** [validatePagination(params)]; the arguments are [parseInt(params.limit)]
    and [parseInt(params.skip)]. *)
Definition validatePagination (limit skip : parsed) : page :=
  let limit := p_or limit 50 in
  let skip := p_or skip 0 in
  let limit := if p_gt limit 100 then PInt 100 else limit in
  let limit := if p_lt limit 1 then PInt 50 else limit in
  let skip := if p_lt skip 0 then PInt 0 else skip in
  mkPage limit skip.

End MemoryValidation.

(** * Properties *)

(** ** Arithmetic of the cooldown *)

Lemma ceil_div_spec a b : 0 < b → b * (ceil_div a b - 1) < a ≤ b * ceil_div a b.
Proof.
  intros Hb. unfold ceil_div.
  pose proof (Z.div_mod (- a) b ltac:(lia)) as Hdm.
  pose proof (Z.mod_pos_bound (- a) b Hb) as Hm.
  nia.
Qed.

Lemma ceil_div_mono a a' b : 0 < b → a ≤ a' → ceil_div a b ≤ ceil_div a' b.
Proof.
  intros Hb Hle. unfold ceil_div.
  assert ((- a') / b ≤ (- a) / b) by (apply Z.div_le_mono; lia). lia.
Qed.

Lemma ceil_div_step a a' b : 0 < b → a + b ≤ a' → ceil_div a b < ceil_div a' b.
Proof.
  intros Hb Hle.
  pose proof (ceil_div_spec a b Hb). pose proof (ceil_div_spec a' b Hb). nia.
Qed.

(** ** Rate limiter *)

Section RateLimiterFacts.

Import RateLimiter.

Lemma check_after_update_cooling (l : gmap string Z) (type : string) (T T' : Z) :
  T' < T + RATE_LIMIT_MS →
  checkRateLimit (updateRateLimit l type T) type T' =
    mkRateLimit false (Some (ceil_div (T + RATE_LIMIT_MS - T') 1000)).
Proof.
  intros H. unfold checkRateLimit, updateRateLimit.
  rewrite lookup_insert_eq. cbn zeta.
  destruct (Z.ltb_spec (T' - T) RATE_LIMIT_MS) as [_|Hge]; [|lia].
  do 3 f_equal. lia.
Qed.

Lemma check_after_update_allowed (l : gmap string Z) (type : string) (T T' : Z) :
  T + RATE_LIMIT_MS ≤ T' →
  checkRateLimit (updateRateLimit l type T) type T' = mkRateLimit true None.
Proof.
  intros H. unfold checkRateLimit, updateRateLimit.
  rewrite lookup_insert_eq. cbn zeta.
  destruct (Z.ltb_spec (T' - T) RATE_LIMIT_MS) as [Hlt|_]; [lia|done].
Qed.

(** Triggering one class never changes what another class is told. *)
Lemma check_other_class (l : gmap string Z) (type other : string) (T now : Z) :
  type ≠ other →
  checkRateLimit (updateRateLimit l type T) other now = checkRateLimit l other now.
Proof.
  intros H. unfold checkRateLimit, updateRateLimit. by rewrite lookup_insert_ne.
Qed.

(** C6, as stated, fails: the remaining time is rounded up to whole seconds,
    so two successive calls inside the same second of the cooldown are told
    the same value.  After [updateRateLimit] at 1000 ms, the calls at 1100 ms
    and at 1200 ms both answer 5. *)
Lemma cooldown_not_strictly_decreasing :
  checkRateLimit (updateRateLimit lastActionTime_init "shock" 1000) "shock" 1100
    = mkRateLimit false (Some 5)
  ∧ checkRateLimit (updateRateLimit lastActionTime_init "shock" 1000) "shock" 1200
    = mkRateLimit false (Some 5)
  ∧ ¬ (5 < 5).
Proof. split; [|split]; [vm_compute; reflexivity .. | lia]. Qed.

(** C6, amended: after [updateRateLimit] at time [T], every [checkRateLimit]
    of that class at a time [T1] with [T <= T1 < T + 5000] answers
    [allowed: false] with [timeRemaining = ceil((T + 5000 - T1) / 1000)], a
    whole number of seconds between 1 and 5 that never increases from one
    call to a later one and is strictly smaller once the later call comes at
    least a second after the earlier; from [T + 5000] on every call answers
    [allowed: true]. *)
Theorem cooldown_after_trigger (l : gmap string Z) (type : string) (T T1 T2 : Z) :
  T ≤ T1 → T1 ≤ T2 → T2 < T + 5000 →
  let l' := updateRateLimit l type T in
  let r1 := ceil_div (T + 5000 - T1) 1000 in
  let r2 := ceil_div (T + 5000 - T2) 1000 in
  checkRateLimit l' type T1 = mkRateLimit false (Some r1)
  ∧ checkRateLimit l' type T2 = mkRateLimit false (Some r2)
  ∧ 1 ≤ r2 ∧ r2 ≤ r1 ∧ r1 ≤ 5
  ∧ (T1 + 1000 ≤ T2 → r2 < r1)
  ∧ (∀ T', T + 5000 ≤ T' → checkRateLimit l' type T' = mkRateLimit true None).
Proof.
  intros H0 H1 H2 l' r1 r2. subst l' r1 r2.
  pose proof (ceil_div_spec (T + 5000 - T1) 1000 ltac:(lia)).
  pose proof (ceil_div_spec (T + 5000 - T2) 1000 ltac:(lia)).
  repeat split.
  - apply check_after_update_cooling. unfold RATE_LIMIT_MS. lia.
  - apply check_after_update_cooling. unfold RATE_LIMIT_MS. lia.
  - lia.
  - apply ceil_div_mono; lia.
  - lia.
  - intros Hgap. apply ceil_div_step; lia.
  - intros T' HT'. apply check_after_update_allowed. unfold RATE_LIMIT_MS. lia.
Qed.

Lemma cooldown_after_trigger_witness :
  checkRateLimit (updateRateLimit lastActionTime_init "shock" 1000) "shock" 1100
    = mkRateLimit false (Some (ceil_div (1000 + 5000 - 1100) 1000))
  ∧ checkRateLimit (updateRateLimit lastActionTime_init "shock" 1000) "shock" 2300
    = mkRateLimit false (Some (ceil_div (1000 + 5000 - 2300) 1000))
  ∧ ceil_div (1000 + 5000 - 2300) 1000 < ceil_div (1000 + 5000 - 1100) 1000.
Proof.
  destruct (cooldown_after_trigger lastActionTime_init "shock" 1000 1100 2300
              ltac:(lia) ltac:(lia) ltac:(lia))
    as (E1 & E2 & _ & _ & _ & Hlt & _).
  split; [exact E1|]. split; [exact E2|]. apply Hlt. lia.
Defined.

End RateLimiterFacts.

(** ** Pavlok controller *)

Section PavlokFacts.

Import Pavlok.

Lemma strict_neq_true_spec (v : jsval) :
  strict_neq_true v = true ↔ v ≠ VBool true.
Proof.
  split.
  - intros H ->. discriminate.
  - intros H. destruct v as [| |[]| | | | |]; try reflexivity. congruence.
Qed.

(** C2: a shock request whose [confirm] is not the boolean [true] (absent
    included) is answered 400 "Safety confirmation required" (not 429),
    whatever the intensity, the configuration and the state of the rate
    limiter, and the process state is left as it was: [lastActionTime] and
    the history are unchanged, the trace has gained no rate-limit check and
    no POST to the device, and the clock was not read. *)
Theorem shock_requires_confirmation (req : body) (e : env) (s : state) :
  confirm req ≠ VBool true →
  (triggerShock req e s).1 = Ret (mkResponse 400 confirmation_required)
  ∧ lastActionTime (triggerShock req e s).2 = lastActionTime s
  ∧ history (triggerShock req e s).2 = history s
  ∧ trace (triggerShock req e s).2 = trace s
  ∧ ticks (triggerShock req e s).2 = ticks s.
Proof.
  intros H. apply strict_neq_true_spec in H.
  unfold triggerShock, try_catch. rewrite H. cbn. done.
Qed.

Lemma shock_requires_confirmation_witness :
  (triggerShock (mkBody (VInt 2) VUndefined VUndefined) env_ok state_cooling).1
    = Ret (mkResponse 400 confirmation_required)
  ∧ lastActionTime
      (triggerShock (mkBody (VInt 2) VUndefined VUndefined) env_ok state_cooling).2
    = lastActionTime state_cooling.
Proof.
  destruct (shock_requires_confirmation (mkBody (VInt 2) VUndefined VUndefined)
              env_ok state_cooling ltac:(discriminate)) as (E1 & E2 & _).
  split; [exact E1 | exact E2].
Defined.

Lemma new_events_app s l tr h t :
  new_events s (mkState l h (trace s ++ tr) t) = tr.
Proof. unfold new_events. cbn. by rewrite drop_app_length. Qed.

Lemma new_events_same s l h t :
  new_events s (mkState l h (trace s) t) = [].
Proof. unfold new_events. cbn. apply drop_all. Qed.

Lemma new_events_refl s : new_events s s = [].
Proof. unfold new_events. apply drop_all. Qed.

(** Once a check has passed, later checks pass as long as the class is not
    triggered. *)
Lemma check_allowed_later (l : gmap string Z) key now t' :
  RateLimiter.allowed (RateLimiter.checkRateLimit l key now) = true → now ≤ t' →
  RateLimiter.checkRateLimit l key t' = RateLimiter.mkRateLimit true None.
Proof.
  unfold RateLimiter.checkRateLimit. destruct (l !! key) as [last|]; [|done].
  cbn zeta. destruct (Z.ltb_spec (now - last) RateLimiter.RATE_LIMIT_MS); [done|].
  intros _ Hle.
  destruct (Z.ltb_spec (t' - last) RateLimiter.RATE_LIMIT_MS); [lia|done].
Qed.

(** Running a handler: unfold it and follow every branch. *)
Ltac unfold_handlers :=
  unfold trigger, triggerBeep, triggerVibration, triggerShock, try_catch, bind,
    createPavlokClient, checkRateLimit, updateRateLimit, logStimulus,
    handleError, beep, vibrate, shock, _sendStimulus, validateIntensity,
    emit, Date_now, ret, throw, with_db in *.

Ltac run_handler k :=
  destruct k; unfold_handlers; cbn;
  repeat (case_match; cbn in *; simplify_eq; try done).

Ltac tidy_trace :=
  cbn; rewrite <- ?app_assoc;
  rewrite ?new_events_app, ?new_events_same, ?new_events_refl; cbn.

Ltac pick_event H :=
  repeat (apply elem_of_cons in H as [H|H]; [simplify_eq|]);
  try (by apply elem_of_nil in H).

(** C9: for each trigger endpoint, (1) the response and the rate limiter's
    state do not depend on whether saving the history document succeeds,
    and (2) the handler always answers, the logging error never leaving
    [logStimulus]; (3) whenever the POST to the device was issued, the last
    effect of the handler, after that POST, is the attempt to save a history
    document of the endpoint's class whose [success] tells how the POST
    ended, and the document joins the history exactly when the save
    succeeds. *)
Theorem history_logging_never_alters_outcome
    (k : kind) (req : body) (e : env) (s : state) :
  (∀ save save',
     (trigger k req (with_db e save) s).1 = (trigger k req (with_db e save') s).1
     ∧ lastActionTime (trigger k req (with_db e save) s).2
       = lastActionTime (trigger k req (with_db e save') s).2)
  ∧ (∃ resp, (trigger k req e s).1 = Ret resp)
  ∧ (∀ ty n,
       EvPost ty n ∈ new_events s (trigger k req e s).2 →
       ∃ r ok,
         last (new_events s (trigger k req e s).2) = Some (EvSave r ok)
         ∧ ok = db_save e r
         ∧ s_type r = rate_key k
         ∧ s_intensity r = VInt n
         ∧ s_success r = is_ok (post e ty n)
         ∧ history (trigger k req e s).2
           = (history s ++ (if ok then [r] else []))%list).
Proof.
  split; [|split].
  - intros save save'. run_handler k.
  - run_handler k; eauto.
  - intros ty n. run_handler k; tidy_trace; intros Hin; pick_event Hin.
    all: do 2 eexists; split; [reflexivity|]; cbn.
    all: repeat split; try done.
    all: try (match goal with H : post _ _ _ = _ |- _ => rewrite H end; done).
    all: try (by rewrite ?app_nil_r).
Qed.

Lemma history_logging_never_alters_outcome_witness :
  (trigger KShock (mkBody (VInt 2) (VBool true) VUndefined)
     (with_db env_down (fun _ => false)) init_state).1
  = (trigger KShock (mkBody (VInt 2) (VBool true) VUndefined)
       (with_db env_down (fun _ => true)) init_state).1
  ∧ ∃ r ok,
      last (new_events init_state
              (trigger KShock (mkBody (VInt 2) (VBool true) VUndefined)
                 env_down init_state).2) = Some (EvSave r ok)
      ∧ s_success r = false.
Proof.
  destruct (history_logging_never_alters_outcome KShock
              (mkBody (VInt 2) (VBool true) VUndefined) env_down init_state)
    as (Hsame & _ & Hlog).
  split; [apply Hsame|].
  destruct (Hlog "shock" 2) as (r & ok & Hlast & _ & _ & _ & Hs & _).
  { vm_compute. apply list_elem_of_In. cbn. auto. }
  exists r, ok. split; [exact Hlast | exact Hs].
Defined.

(** C10: for each trigger endpoint, when the POST to the device was issued
    and failed, [lastActionTime] is left as it was, so no cooldown starts:
    every later check of the class passes; the failure is the last effect of
    the handler, a history document of the class with [success = false] and
    the error's message, which joins the history when the save succeeds; and
    the response carries that message as an error. *)
Theorem failed_trigger_starts_no_cooldown
    (k : kind) (req : body) (e : env) (s : state) (ty : string) (n : Z) :
  EvPost ty n ∈ new_events s (trigger k req e s).2 →
  post e ty n ≠ HttpOk →
  lastActionTime (trigger k req e s).2 = lastActionTime s
  ∧ (∀ t', clock e (ticks s) ≤ t' →
       RateLimiter.checkRateLimit (lastActionTime (trigger k req e s).2)
         (rate_key k) t'
       = RateLimiter.mkRateLimit true None)
  ∧ ∃ r ok m st what,
      last (new_events s (trigger k req e s).2) = Some (EvSave r ok)
      ∧ ok = db_save e r
      ∧ s_type r = rate_key k ∧ s_success r = false ∧ s_error r = Some m
      ∧ history (trigger k req e s).2
        = (history s ++ (if ok then [r] else []))%list
      ∧ (trigger k req e s).1 = Ret (mkResponse st (JsonError what (Some m) None)).
Proof.
  run_handler k; tidy_trace; intros Hin Hfail; pick_event Hin.
  all: split; [reflexivity|].
  all: split;
    [intros t' Ht'; eapply check_allowed_later; [|exact Ht'];
     by apply negb_false_iff|].
  all: do 5 eexists; split; [reflexivity|]; cbn.
  all: repeat split; try done.
  all: by rewrite ?app_nil_r.
Qed.

Lemma failed_trigger_starts_no_cooldown_witness :
  lastActionTime
    (trigger KBeep (mkBody (VInt 3) VUndefined (VStr "focus")) env_down init_state).2
  = lastActionTime init_state
  ∧ RateLimiter.checkRateLimit
      (lastActionTime
         (trigger KBeep (mkBody (VInt 3) VUndefined (VStr "focus")) env_down
            init_state).2)
      "beep" 10001
    = RateLimiter.mkRateLimit true None.
Proof.
  destruct (failed_trigger_starts_no_cooldown KBeep
              (mkBody (VInt 3) VUndefined (VStr "focus")) env_down init_state
              "beep" 3) as (Hsame & Hlater & _).
  { vm_compute. apply list_elem_of_In. cbn. auto. }
  { discriminate. }
  split; [exact Hsame|]. apply (Hlater 10001). cbn. lia.
Defined.

End PavlokFacts.

(** ** The shared cache *)

Section CacheFacts.

Import Cache.

Context {V : Type}.

Lemma get_set_eq (c : gmap string (CacheEntry V)) k v ttl T0 now :
  get (set c k v ttl T0) k now = if T0 + 1000 * ttl <=? now then None else Some v.
Proof. unfold get, set. by rewrite lookup_insert_eq. Qed.

Lemma get_set_ne (c : gmap string (CacheEntry V)) k k' v ttl T0 now :
  k ≠ k' → get (set c k v ttl T0) k' now = get c k' now.
Proof. intros H. unfold get, set. by rewrite lookup_insert_ne. Qed.

Lemma get_del_eq (c : gmap string (CacheEntry V)) k now :
  get (del c k) k now = None.
Proof. unfold get, del. by rewrite lookup_delete_eq. Qed.

Lemma get_del_ne (c : gmap string (CacheEntry V)) k k' now :
  k ≠ k' → get (del c k) k' now = get c k' now.
Proof. intros H. unfold get, del. by rewrite lookup_delete_ne. Qed.

(** A value is never served once [now >= expiresAt]. *)
Lemma get_expired (c : gmap string (CacheEntry V)) k e now :
  c !! k = Some e → expiresAt e ≤ now → get c k now = None.
Proof.
  intros Hk Hle. unfold get. rewrite Hk.
  destruct (Z.leb_spec (expiresAt e) now); [done|lia].
Qed.

(** Writing a key again resets its expiry to the new write. *)
Lemma set_set (c : gmap string (CacheEntry V)) k v v' ttl ttl' T0 T1 :
  set (set c k v ttl T0) k v' ttl' T1 = set c k v' ttl' T1.
Proof. unfold set. apply insert_insert_eq. Qed.

End CacheFacts.

Section CachedFetchFacts.

Import Cache.

(** C3, as stated, fails in its second half: [getCachedOrFetch] tests the
    value it read for truthiness, so a read that hits a stored falsy value
    still calls the fetch function.  An upstream answer with an empty body
    was cached under strava:athlete at time 0 for an hour; one second later
    the read returns it, and the fetch function is called all the same. *)
Lemma cached_falsy_value_is_refetched :
  get (cache_after (getCachedOrFetch ∅ "strava:athlete" 3600
                      (Fulfilled (VStr "")) 0 0))
      "strava:athlete" 1000
    = Some (VStr "")
  ∧ fetch_calls
      (getCachedOrFetch
         (cache_after (getCachedOrFetch ∅ "strava:athlete" 3600
                         (Fulfilled (VStr "")) 0 0))
         "strava:athlete" 3600 (Fulfilled (VObj "athlete")) 1000 1000)
    = 1%nat.
Proof. split; vm_compute; reflexivity. Qed.

(** C3, amended.  Store: a key set with TTL [t] (seconds) at time [T0]
    (milliseconds) reads as the stored value at every time before
    [T0 + 1000 t] and as absent from then on.  [getCachedOrFetch] calls its
    fetch function exactly when the read yields no truthy value, that is on
    a miss or on a hit of a stored falsy value, and at most once; on a
    truthy hit it answers the cached value and leaves the cache alone; when
    the fetch fulfils, the fetched value is answered and cached under the
    same key with the same TTL, counted from the time of the write; when it
    rejects, the rejection is the answer and the cache is left alone. *)
Theorem cache_ttl_and_cached_fetch
    (c : gmap string (CacheEntry jsval)) (k : string) (v : jsval)
    (t T0 now now' : Z) (fetched : settled jsval) :
  (now < T0 + 1000 * t → get (set c k v t T0) k now = Some v)
  ∧ (T0 + 1000 * t ≤ now → get (set c k v t T0) k now = None)
  ∧ (fetch_calls (getCachedOrFetch c k t fetched now now') = 1%nat
     ↔ ¬ ∃ w, get c k now = Some w ∧ truthy w = true)
  ∧ (fetch_calls (getCachedOrFetch c k t fetched now now') = 0%nat
     ↔ ∃ w, get c k now = Some w ∧ truthy w = true)
  ∧ (∀ w, get c k now = Some w → truthy w = true →
       getCachedOrFetch c k t fetched now now'
       = mkRun (Fulfilled (mkResult w true)) c 0%nat)
  ∧ (∀ d, fetch_calls (getCachedOrFetch c k t fetched now now') = 1%nat →
       fetched = Fulfilled d →
       getCachedOrFetch c k t fetched now now'
       = mkRun (Fulfilled (mkResult d false)) (set c k d t now') 1%nat)
  ∧ (∀ m, fetch_calls (getCachedOrFetch c k t fetched now now') = 1%nat →
       fetched = Rejected m →
       getCachedOrFetch c k t fetched now now' = mkRun (Rejected m) c 1%nat).
Proof.
  split; [|split].
  - intros H. rewrite get_set_eq. destruct (Z.leb_spec (T0 + 1000 * t) now); [lia|done].
  - intros H. rewrite get_set_eq. destruct (Z.leb_spec (T0 + 1000 * t) now); [done|lia].
  - unfold getCachedOrFetch.
    destruct (get c k now) as [w|] eqn:Hget; cbn.
    + destruct (truthy w) eqn:Hw; cbn.
      * repeat split; try done.
        -- intros []. by exists w.
        -- by exists w.
        -- intros w' [= <-] _. done.
      * assert (¬ ∃ w', Some w = Some w' ∧ truthy w' = true) as Hno
          by (intros (w' & [= <-] & Hw'); congruence).
        destruct fetched as [d|m]; cbn; repeat split; try done.
        all: try (intros; simplify_eq; congruence).
        all: try (intros []; by destruct Hno).
    + assert (¬ ∃ w', @None jsval = Some w' ∧ truthy w' = true) as Hno
        by (intros (w' & [=] & _)).
      destruct fetched as [d|m]; cbn; repeat split; try done.
      all: try (intros; simplify_eq; congruence).
      all: try (intros []; by destruct Hno).
Qed.

Lemma cache_ttl_and_cached_fetch_witness :
  get (set ∅ "strava:athlete" (VObj "athlete") 900 0) "strava:athlete" 899000
    = Some (VObj "athlete")
  ∧ get (set ∅ "strava:athlete" (VObj "athlete") 900 0) "strava:athlete" 900000
    = None.
Proof.
  destruct (cache_ttl_and_cached_fetch ∅ "strava:athlete" (VObj "athlete")
              900 0 899000 899000 (Rejected "")) as (Hbefore & _).
  destruct (cache_ttl_and_cached_fetch ∅ "strava:athlete" (VObj "athlete")
              900 0 900000 900000 (Rejected "")) as (_ & Hafter & _).
  split; [apply Hbefore; lia | apply Hafter; lia].
Defined.

End CachedFetchFacts.

(** ** Strava client *)

Section StravaFacts.

Import Strava.




(** *** Interleaved callers *)

Lemma step_call s ci c nowMs :
  clients s !! ci = Some c → needs_refresh c nowMs = true →
  step s (Call ci nowMs) =
    mkSys (refresh_send c (sworld s)) (clients s)
      (requests s ++ [mkRequest ci (refreshToken c) true])
      (callers s ++ [Waiting (length (requests s))]).
Proof. intros Hc Hn. cbn. by rewrite Hc, Hn. Qed.

Lemma pending_snoc (l : list request) rq :
  filter (fun rq => in_flight rq = true) (l ++ [rq]) =
  filter (fun rq => in_flight rq = true) l ++ (if in_flight rq then [rq] else []).
Proof.
  rewrite filter_app. f_equal. destruct (in_flight rq) eqn:E.
  - rewrite filter_cons_True; done.
  - rewrite filter_cons_False; [done|congruence].
Qed.

Lemma run_cons s e es : run s (e :: es) = run (step s e) es.
Proof. reflexivity. Qed.

(** A batch of calls, none of them answered yet. *)
Lemma run_calls (calls : list (nat * Z)) : ∀ s rt,
  Forall (may_refresh s rt) calls →
  requests (run s (call_of <$> calls)) = requests s ++ (request_of rt <$> calls)
  ∧ pending (run s (call_of <$> calls)) = pending s ++ (request_of rt <$> calls)
  ∧ callers (run s (call_of <$> calls))
    = callers s ++ (Waiting <$> seq (length (requests s)) (length calls))
  ∧ clients (run s (call_of <$> calls)) = clients s
  ∧ trace (sworld (run s (call_of <$> calls)))
    = trace (sworld s) ++ replicate (length calls) (IoRefresh rt)
  ∧ file (sworld (run s (call_of <$> calls))) = file (sworld s).
Proof.
  induction calls as [|[ci t] calls IH]; intros s rt Hall.
  - cbn. by rewrite !app_nil_r.
  - apply Forall_cons in Hall as [(c & Hc & Hn & Hrt) Hall]. cbn in Hc, Hn.
    rewrite fmap_cons, run_cons. change (call_of (ci, t)) with (Call ci t).
    rewrite (step_call _ _ _ _ Hc Hn).
    set (s1 := mkSys _ _ _ _).
    destruct (IH s1 rt) as (H1 & H2 & H3 & H4 & H5 & H6).
    { eapply Forall_impl; [exact Hall|]. intros p (c' & ? & ? & ?). by exists c'. }
    rewrite H1, H2, H3, H4, H5, H6. subst s1. cbn.
    unfold pending. cbn. rewrite pending_snoc. cbn.
    rewrite length_app. cbn. rewrite <- !app_assoc. cbn. rewrite Hrt.
    replace (length (requests s) + 1)%nat with (S (length (requests s))) by lia.
    done.
Qed.







(** A caller waiting on a request in flight keeps waiting, and its request
    stays in flight, through every event other than the settling of that
    request. *)
Lemma step_keeps_waiting s e q k ci rt :
  (∀ resp write_ok, e ≠ Settle q resp write_ok) →
  requests s !! q = Some (mkRequest ci rt true) →
  is_Some (clients s !! ci) →
  callers s !! k = Some (Waiting q) →
  requests (step s e) !! q = Some (mkRequest ci rt true)
  ∧ is_Some (clients (step s e) !! ci)
  ∧ callers (step s e) !! k = Some (Waiting q).
Proof.
  intros Hne Hr Hc Hk.
  destruct e as [|ci' nowMs|r resp write_ok]; unfold step; cbv beta iota.
  - destruct (new_StravaClient None (sworld s)) as [c|m]; cbn; [|auto].
    split; [done|]. split; [|auto].
    destruct Hc as [c' Hc]. exists c'. by apply lookup_app_l_Some.
  - destruct (clients s !! ci') as [c|]; [|auto].
    destruct (needs_refresh c nowMs); cbn.
    + split; [by apply lookup_app_l_Some|]. split; [done|].
      by apply lookup_app_l_Some.
    + split; [done|]. split; [done|]. by apply lookup_app_l_Some.
  - assert (r ≠ q) as Hrq by (intros ->; by eapply Hne).
    destruct (requests s !! r) as [rq|]; [|auto].
    destruct (in_flight rq); [|auto].
    destruct (clients s !! sender rq) as [c|] eqn:Hs; [|auto].
    destruct (refresh_receive c (sworld s) resp write_ok) as [[res c'] w'].
    cbn. split; [by rewrite list_lookup_insert_ne|]. split.
    + destruct (decide (sender rq = ci)) as [<-|Hd].
      * exists c'. apply list_lookup_insert_eq. by eapply lookup_lt_Some.
      * by rewrite list_lookup_insert_ne.
    + rewrite list_lookup_fmap, Hk. cbn.
      destruct (Nat.eqb_spec r q); [done|reflexivity].
Qed.

Lemma run_keeps_waiting es : ∀ s q k ci rt,
  Forall (λ e, ∀ resp write_ok, e ≠ Settle q resp write_ok) es →
  requests s !! q = Some (mkRequest ci rt true) →
  is_Some (clients s !! ci) →
  callers s !! k = Some (Waiting q) →
  requests (run s es) !! q = Some (mkRequest ci rt true)
  ∧ is_Some (clients (run s es) !! ci)
  ∧ callers (run s es) !! k = Some (Waiting q).
Proof.
  induction es as [|e es IH]; intros s q k ci rt Hall Hr Hc Hk; [done|].
  apply Forall_cons in Hall as [He Hall]. rewrite run_cons.
  destruct (step_keeps_waiting s e q k ci rt He Hr Hc Hk) as (Hr' & Hc' & Hk').
  by apply IH.
Qed.

(** Settling a request in flight wakes the caller waiting on it with the
    outcome of that request alone. *)
Lemma settle_wakes s q k ci rt resp write_ok :
  requests s !! q = Some (mkRequest ci rt true) →
  is_Some (clients s !! ci) →
  callers s !! k = Some (Waiting q) →
  callers (step s (Settle q resp write_ok)) !! k
  = Some (match resp with
          | PostOk td =>
              if write_ok then Done (access_token td)
              else Failed "Token refresh failed. You may need to re-authorize: node services/strava/oauth-setup.js"
          | PostFail =>
              Failed "Token refresh failed. You may need to re-authorize: node services/strava/oauth-setup.js"
          end).
Proof.
  intros Hr [c Hc] Hk. cbn. rewrite Hr. cbn. rewrite Hc.
  destruct resp as [td|]; [destruct write_ok|]; cbn;
    rewrite list_lookup_fmap, Hk; cbn; by rewrite Nat.eqb_refl.
Qed.

(** C1, as stated, fails: nothing serializes the refresh.  Two requests
    arrive at 900000 ms, while the stored token expires at second 1000; each
    builds its client from the token file and calls [_ensureValidToken]
    before any answer has come.  Two POSTs are in flight at once, both
    carrying the refresh token "r0"; when the token endpoint answers them
    with different tokens, the two callers end with different access
    tokens.  Two calls on one client do the same. *)
Lemma concurrent_checks_issue_concurrent_refreshes :
  pending (run boot [Create; Call 0 900000; Create; Call 1 900000])
    = [mkRequest 0 (Some "r0") true; mkRequest 1 (Some "r0") true]
  ∧ ¬ (length (pending (run boot [Create; Call 0 900000; Create; Call 1 900000]))
       ≤ 1)%nat
  ∧ callers (run boot [Create; Call 0 900000; Create; Call 1 900000;
                       Settle 0 (PostOk tk1) true; Settle 1 (PostOk tk2) true])
    = [Done "a1"; Done "a2"]
  ∧ pending (run boot [Create; Call 0 900000; Call 0 900000])
    = [mkRequest 0 (Some "r0") true; mkRequest 0 (Some "r0") true].
Proof.
  split; [vm_compute; reflexivity|]. split; [vm_compute; lia|].
  split; vm_compute; reflexivity.
Qed.

(** C1, amended: when [N] token checks arrive, each for a client that is
    inside the refresh buffer and holds the stored refresh token, before any
    answer of the token endpoint has been processed, every check sends its
    own refresh: [N] more POSTs are in flight, each carrying that refresh
    token, and each caller waits on its own request.  Whatever happens to the
    other requests in the meantime, the caller is woken by the settling of
    its own request and by that alone: answered with new tokens that are
    saved, it receives the access token of that answer; answered with tokens
    that cannot be saved, or rejected, it receives the re-authorization
    error. *)
Theorem concurrent_checks_each_send_a_refresh
    (s : sys) (calls : list (nat * Z)) (rt : option string) :
  Forall (may_refresh s rt) calls →
  pending (run s (call_of <$> calls)) = pending s ++ (request_of rt <$> calls)
  ∧ length (pending (run s (call_of <$> calls)))
    = (length (pending s) + length calls)%nat
  ∧ trace (sworld (run s (call_of <$> calls)))
    = trace (sworld s) ++ replicate (length calls) (IoRefresh rt)
  ∧ callers (run s (call_of <$> calls))
    = callers s ++ (Waiting <$> seq (length (requests s)) (length calls))
  ∧ (∀ j es resp write_ok, (j < length calls)%nat →
       Forall (λ e, ∀ resp' write_ok',
                 e ≠ Settle (length (requests s) + j) resp' write_ok') es →
       callers (step (run (run s (call_of <$> calls)) es)
                  (Settle (length (requests s) + j) resp write_ok))
         !! (length (callers s) + j)%nat
       = Some (match resp with
               | PostOk td =>
                   if write_ok then Done (access_token td)
                   else Failed "Token refresh failed. You may need to re-authorize: node services/strava/oauth-setup.js"
               | PostFail =>
                   Failed "Token refresh failed. You may need to re-authorize: node services/strava/oauth-setup.js"
               end)).
Proof.
  intros Hall.
  destruct (run_calls calls s rt Hall) as (H1 & H2 & H3 & H4 & H5 & H6).
  split; [exact H2|]. split; [by rewrite H2, length_app, length_fmap|].
  split; [exact H5|]. split; [exact H3|].
  intros j es resp write_ok Hj Hes.
  destruct (lookup_lt_is_Some_2 calls j Hj) as [p Hp].
  destruct (proj1 (Forall_lookup _ _) Hall j p Hp) as (c & Hc & _ & _).
  destruct (run_keeps_waiting es (run s (call_of <$> calls))
              (length (requests s) + j) (length (callers s) + j) p.1 rt Hes)
    as (Hr & Hcl & Hk).
  - rewrite H1, lookup_app_r by lia.
    replace (length (requests s) + j - length (requests s))%nat with j by lia.
    by rewrite list_lookup_fmap, Hp.
  - rewrite H4. by exists c.
  - rewrite H3, lookup_app_r by lia.
    replace (length (callers s) + j - length (callers s))%nat with j by lia.
    by rewrite list_lookup_fmap, lookup_seq_lt by lia.
  - by apply (settle_wakes _ _ _ p.1 rt).
Qed.

Lemma concurrent_checks_each_send_a_refresh_witness :
  pending (run (run boot [Create; Create])
             (call_of <$> [(0%nat, 900000); (1%nat, 900000); (0%nat, 900000)]))
  = [mkRequest 0 (Some "r0") true; mkRequest 1 (Some "r0") true;
     mkRequest 0 (Some "r0") true]
  ∧ callers (step (run (run (run boot [Create; Create])
                          (call_of <$> [(0%nat, 900000); (1%nat, 900000);
                                        (0%nat, 900000)]))
                     [Settle 0 (PostOk tk1) true; Settle 2 PostFail true])
               (Settle 1 (PostOk tk2) false))
    !! 1%nat
    = Some (Failed "Token refresh failed. You may need to re-authorize: node services/strava/oauth-setup.js").
Proof.
  destruct (concurrent_checks_each_send_a_refresh (run boot [Create; Create])
              [(0%nat, 900000); (1%nat, 900000); (0%nat, 900000)] (Some "r0"))
    as (Hp & _ & _ & _ & Hwake).
  - repeat (apply Forall_cons; split;
              [exists c0; split; [reflexivity|split; reflexivity]|]).
    apply Forall_nil. exact I.
  - split; [exact Hp|].
    apply (Hwake 1%nat [Settle 0 (PostOk tk1) true; Settle 2 PostFail true]
             (PostOk tk2) false).
    + cbn. lia.
    + repeat (apply Forall_cons; split; [intros resp' write_ok'; discriminate|]).
      apply Forall_nil. exact I.
Defined.

End StravaFacts.

(** ** Unified dashboard *)

Section UnifiedFacts.

Import Cache Unified.

Context {Event Activity : Type}.
Variable filterTasks : list Task → string → jsval → list Task.
Variable sortTasks : list Task → list Task.
Variable calculateFitnessSummary : list Activity → @FitnessSummary Activity.
Variable getCurrentWeekDates : Z → Z * Z.
Variable isoDate : Z → string.
Variable js_Date : string → option Z.

Lemma errors_key_None (l : list ErrorEntry) : errors_key l = None ↔ l = [].
Proof. destruct l; cbn; split; congruence. Qed.

Lemma rejections_nil {A B C} (a : settled A) (b : settled B) (c : settled C) :
  rejection "calendar" a ++ rejection "todoist" b ++ rejection "strava" c = []
  ↔ is_rejected a = false ∧ is_rejected b = false ∧ is_rejected c = false.
Proof.
  destruct a, b, c; cbn; split; try done; intros (? & ? & ?); done.
Qed.


End UnifiedFacts.


(** ** Calendar writes *)

Section CalendarFacts.

Import Cache Calendar.

Variable js_Date : jsval → option Z.
Variable formatDate : option Z → string.
Variable trim : string → string.

Lemma prefix_append (p s : string) : String.prefix p (p +:+ s) = true.
Proof.
  induction p as [|a p IH]; simpl.
  - by destruct s.
  - destruct (Ascii.ascii_dec a a) as [_|Hne]; [exact IH|done].
Qed.

Lemma clearDateCache_eq (c : gmap string (CacheEntry (list gevent))) d now :
  getCachedEvents (clearDateCache c d) d now = None.
Proof. unfold getCachedEvents, clearDateCache. apply get_del_eq. Qed.

Lemma clearDateCache_ne (c : gmap string (CacheEntry (list gevent))) d k :
  k ≠ getCacheKey d → clearDateCache c d !! k = c !! k.
Proof. intros H. unfold clearDateCache, del. by rewrite lookup_delete_ne. Qed.

(** What the two handlers do to the cache. *)
Lemma post_events_cache c initialized insert eventData :
  (post_events js_Date formatDate trim c initialized insert eventData).2
  = match (post_events js_Date formatDate trim c initialized insert eventData).1 with
    | R201 _ _ => clearDateCache c (getDateKey js_Date formatDate (d_start eventData))
    | _ => c
    end.
Proof.
  unfold post_events.
  destruct (validateEventData js_Date trim eventData) as [errors|]; [|done].
  destruct (negb (length errors =? 0)%nat); [done|].
  destruct (negb initialized); [done|].
  by destruct (insert _).
Qed.

Lemma put_events_cache c initialized update eventId eventData :
  (put_events js_Date formatDate trim c initialized update eventId eventData).2
  = match (put_events js_Date formatDate trim c initialized update eventId eventData).1 with
    | R200 _ => clearDateCache c (getDateKey js_Date formatDate (d_start eventData))
    | _ => c
    end.
Proof.
  unfold put_events.
  destruct (validateEventData js_Date trim eventData) as [errors|]; [|done].
  destruct (negb (length errors =? 0)%nat); [done|].
  destruct (negb initialized); [done|].
  destruct (update _ _) as [data|code msg]; [done|].
  by destruct (bool_decide (code = Some 404)).
Qed.

(** C8 fails on the code: a write clears the entry of the date of the new
    start time and nothing else.  The event "e1" is cached in the listing of
    6 January; PUT /events/e1 moves it to 7 January and succeeds.  The
    handler clears calendar:events:2025-01-07; the entry of 6 January, whose
    contents the write changed, is still there one second later: a read of
    6 January is answered from the cache, without asking the calendar API
    (which no longer lists anything on that day), and still lists "e1" at its
    old time. *)
Lemma moved_event_stays_cached_on_old_date :
  put_events sample_js_Date sample_formatDate sample_trim cache_jan6 true
    (fun _ _ => ApiOk e1_after) "e1" move_e1
  = (R200 e1_after, clearDateCache cache_jan6 "2025-01-07")
  ∧ getCachedEvents
      (put_events sample_js_Date sample_formatDate sample_trim cache_jan6 true
         (fun _ _ => ApiOk e1_after) "e1" move_e1).2
      "2025-01-06" 1000
    = Some [e1_before]
  ∧ getEventsWithCache
      (put_events sample_js_Date sample_formatDate sample_trim cache_jan6 true
         (fun _ _ => ApiOk e1_after) "e1" move_e1).2
      true (fun _ => ListOk (Some [])) "2025-01-06" 1000 1005
    = mkEventsRun (Fulfilled [e1_before])
        (put_events sample_js_Date sample_formatDate sample_trim cache_jan6 true
           (fun _ _ => ApiOk e1_after) "e1" move_e1).2 0
  ∧ id e1_before = "e1"
  ∧ start e1_before ≠ start e1_after.
Proof.
  split; [vm_compute; reflexivity|].
  split; [vm_compute; reflexivity|].
  split; [vm_compute; reflexivity|].
  split; [reflexivity|discriminate].
Qed.

(** C8, what the writes do invalidate.  A successful POST /events (answered
    201) or PUT /events/:eventId (answered 200) has removed, when it answers,
    the entry calendar:events:<d> of the date [d] of the request's start
    time, so that the next read of that date misses, and it has removed
    nothing else: every entry under another key is as it was (for a PUT this
    includes the entry of the date the event was on before).  A write that is
    not answered with success (invalid data, calendar not initialised,
    upstream error) leaves the whole cache as it was. *)
Theorem calendar_write_clears_start_date
    (c : gmap string (CacheEntry (list gevent))) (initialized : bool)
    (insert : resource → api_result) (update : string → resource → api_result)
    (eventId : string) (eventData : eventData) (now : Z) :
  (∀ eid data,
     (post_events js_Date formatDate trim c initialized insert eventData).1
       = R201 eid data →
     getCachedEvents
       (post_events js_Date formatDate trim c initialized insert eventData).2
       (getDateKey js_Date formatDate (d_start eventData)) now = None
     ∧ ∀ k, k ≠ getCacheKey (getDateKey js_Date formatDate (d_start eventData)) →
         (post_events js_Date formatDate trim c initialized insert eventData).2 !! k
         = c !! k)
  ∧ ((∀ eid data,
        (post_events js_Date formatDate trim c initialized insert eventData).1
          ≠ R201 eid data) →
     (post_events js_Date formatDate trim c initialized insert eventData).2 = c)
  ∧ (∀ data,
       (put_events js_Date formatDate trim c initialized update eventId eventData).1
         = R200 data →
       getCachedEvents
         (put_events js_Date formatDate trim c initialized update eventId eventData).2
         (getDateKey js_Date formatDate (d_start eventData)) now = None
       ∧ (∀ k, k ≠ getCacheKey (getDateKey js_Date formatDate (d_start eventData)) →
            (put_events js_Date formatDate trim c initialized update eventId eventData).2
              !! k
            = c !! k))
  ∧ ((∀ data,
        (put_events js_Date formatDate trim c initialized update eventId eventData).1
          ≠ R200 data) →
     (put_events js_Date formatDate trim c initialized update eventId eventData).2 = c).
Proof.
  rewrite post_events_cache, put_events_cache.
  split; [|split; [|split]].
  - intros eid data ->. split; [apply clearDateCache_eq|].
    intros k Hk. by apply clearDateCache_ne.
  - intros Hno.
    destruct (post_events js_Date formatDate trim c initialized insert eventData).1
      as [eid data| | | |]; try done.
    by destruct (Hno eid data).
  - intros data ->. split; [apply clearDateCache_eq|].
    intros k Hk. by apply clearDateCache_ne.
  - intros Hno.
    destruct (put_events js_Date formatDate trim c initialized update eventId eventData).1
      as [|data| | |]; try done.
    by destruct (Hno data).
Qed.

End CalendarFacts.

Lemma calendar_write_clears_start_date_witness :
  Calendar.getCachedEvents
    (Calendar.post_events Calendar.sample_js_Date Calendar.sample_formatDate
       Calendar.sample_trim Calendar.cache_two_days true
       (fun _ => Calendar.ApiOk Calendar.e2) Calendar.create_e2).2
    "2025-01-06" 1000 = None
  ∧ (Calendar.post_events Calendar.sample_js_Date Calendar.sample_formatDate
       Calendar.sample_trim Calendar.cache_two_days true
       (fun _ => Calendar.ApiOk Calendar.e2) Calendar.create_e2).2
      !! "calendar:events:2025-01-07"
    = Calendar.cache_two_days !! "calendar:events:2025-01-07".
Proof.
  destruct (calendar_write_clears_start_date Calendar.sample_js_Date
              Calendar.sample_formatDate Calendar.sample_trim
              Calendar.cache_two_days true (fun _ => Calendar.ApiOk Calendar.e2)
              (fun _ _ => Calendar.ApiOk Calendar.e2) "e2" Calendar.create_e2 1000)
    as (Hpost & _).
  destruct (Hpost "e2" Calendar.e2) as (Hmiss & Hframe).
  { vm_compute. reflexivity. }
  split; [exact Hmiss|]. apply Hframe. vm_compute. discriminate.
Defined.

(** ** More on the Pavlok endpoints *)

Section PavlokMore.


Import Pavlok.

Ltac unfold_pavlok :=
  unfold trigger, triggerBeep, triggerVibration, triggerShock, try_catch, bind,
    createPavlokClient, checkRateLimit, updateRateLimit, logStimulus,
    handleError, beep, vibrate, shock, _sendStimulus, validateIntensity,
    emit, Date_now, ret, throw, with_db in *.

Ltac run_pavlok k :=
  destruct k; unfold_pavlok; cbn;
  repeat (case_match; cbn in *; simplify_eq; try done).

Ltac tidy_events :=
  cbn; rewrite <- ?app_assoc;
  rewrite ?new_events_app, ?new_events_same, ?new_events_refl; cbn.

Ltac pick_post H :=
  repeat (apply elem_of_cons in H as [H|H]; [simplify_eq|]);
  try (by apply elem_of_nil in H).

(** X1: a trigger endpoint posts to the device only after every check has
    passed: the intensity is an integer from 1 to 4 and is the one posted,
    the stimulus is the endpoint's own, a token is configured, the rate
    limiter allowed the class at the reading of the clock, a shock carried
    [confirm: true]; and one request posts at most once. *)
Theorem device_posts_are_guarded
    (k : kind) (req : body) (e : env) (s : state) (ty : string) (n : Z) :
  EvPost ty n ∈ new_events s (trigger k req e s).2 →
  1 ≤ n ≤ 4
  ∧ intensity req = VInt n
  ∧ ty = device_name k
  ∧ truthy (pavlokToken e) = true
  ∧ RateLimiter.allowed
      (RateLimiter.checkRateLimit (lastActionTime s) (rate_key k)
         (clock e (ticks s))) = true
  ∧ (k = KShock → confirm req = VBool true)
  ∧ length (filter (λ ev, is_post ev = true) (new_events s (trigger k req e s).2))
    = 1%nat.
Proof.
  run_pavlok k; tidy_events; intros Hin; pick_post Hin.
  all: repeat split; try done; try lia.
  all: try (by apply negb_false_iff).
  all: try (intros _; match goal with H : strict_neq_true _ = false |- _ =>
              destruct (confirm req) as [| |[]| | | | |]; done end).
Qed.

(** X2: a trigger request, whatever its outcome, leaves the last action
    time of every other stimulus class as it was, so the cooldowns of the
    classes are independent. *)
Theorem trigger_touches_one_class
    (k : kind) (req : body) (e : env) (s : state) (key : string) (now : Z) :
  key ≠ rate_key k →
  lastActionTime (trigger k req e s).2 !! key = lastActionTime s !! key
  ∧ RateLimiter.checkRateLimit (lastActionTime (trigger k req e s).2) key now
    = RateLimiter.checkRateLimit (lastActionTime s) key now.
Proof.
  intros Hk.
  assert (lastActionTime (trigger k req e s).2 !! key = lastActionTime s !! key) as H.
  { revert Hk. run_pavlok k; intros Hk; unfold RateLimiter.updateRateLimit;
      by rewrite lookup_insert_ne. }
  split; [exact H|]. unfold RateLimiter.checkRateLimit. by rewrite H.
Qed.

(** X3: with a token configured, a request whose intensity fails
    [validateIntensity] is answered 400 with the validation message, and
    nothing happens: no rate check, no clock reading, no POST, no history
    document. *)
Theorem invalid_intensity_is_rejected_first
    (k : kind) (req : body) (e : env) (s : state) :
  truthy (pavlokToken e) = true →
  valid (validateIntensity (intensity req)) = false →
  (k = KShock → confirm req = VBool true) →
  ∃ msg, v_error (validateIntensity (intensity req)) = Some msg
    ∧ trigger k req e s = (Ret (mkResponse 400 (JsonError msg None None)), s).
Proof.
  intros Htok Hval Hconf.
  destruct k; unfold_pavlok; try rewrite (Hconf eq_refl);
    unfold strict_neq_true; cbn; rewrite Htok; cbn;
    destruct (intensity req) as [| | |n| | | |]; cbn in *; try (eexists; done);
    destruct ((n <? 1) || (4 <? n)); cbn in *; try done; eexists; done.
Qed.

(** X4: without a configured token the client cannot be built: the request
    is answered 500 with the constructor's message, the one effect is the
    attempt to save a failed history document carrying the request's
    intensity unvalidated, and the rate limiter and the clock are not
    touched. *)
Theorem missing_token_fails_and_logs
    (k : kind) (req : body) (e : env) (s : state) :
  truthy (pavlokToken e) = false →
  (k = KShock → confirm req = VBool true) →
  ∃ what r,
    (trigger k req e s).1
      = Ret (mkResponse 500
               (JsonError what
                  (Some "Pavlok token is required. Please set PAVLOK_TOKEN in environment variables.")
                  None))
    ∧ new_events s (trigger k req e s).2 = [EvSave r (db_save e r)]
    ∧ r = mkStimulus (rate_key k) (intensity req) (js_or (reason req) VNull) false
            (Some "Pavlok token is required. Please set PAVLOK_TOKEN in environment variables.")
    ∧ history (trigger k req e s).2 = history s ++ (if db_save e r then [r] else [])
    ∧ lastActionTime (trigger k req e s).2 = lastActionTime s
    ∧ ticks (trigger k req e s).2 = ticks s.
Proof.
  intros Htok Hconf.
  destruct k; unfold_pavlok; try rewrite (Hconf eq_refl);
    unfold strict_neq_true; cbn; rewrite Htok; cbn;
    do 2 eexists; (split; [reflexivity|]); tidy_events;
    (split; [reflexivity|]); (split; [reflexivity|]); repeat split;
    by destruct (db_save e _); rewrite ?app_nil_r.
Qed.

Lemma trigger_in_cooldown (k : kind) (req : body) (e : env) (s : state) (last : Z) :
  lastActionTime s !! rate_key k = Some last →
  clock e (ticks s) - last < RateLimiter.RATE_LIMIT_MS →
  truthy (pavlokToken e) = true →
  valid (validateIntensity (intensity req)) = true →
  (k = KShock → confirm req = VBool true) →
  trigger k req e s
  = (Ret (mkResponse 429
            (JsonError "Rate limit exceeded"
               (Some (wait_message
                        (Some (ceil_div (RateLimiter.RATE_LIMIT_MS
                                         - (clock e (ticks s) - last)) 1000))
                        (device_name k)))
               (Some (ceil_div (RateLimiter.RATE_LIMIT_MS
                                - (clock e (ticks s) - last)) 1000)))),
     mkState (lastActionTime s) (history s)
       (trace s ++ [EvRateCheck (rate_key k)]) (S (ticks s))).
Proof.
  intros Hlast Hcool Htok Hval Hconf.
  apply Z.ltb_lt in Hcool.
  destruct k; unfold_pavlok; try rewrite (Hconf eq_refl);
    unfold strict_neq_true, RateLimiter.checkRateLimit; cbn in *;
    rewrite Htok; cbn;
    (destruct (intensity req) as [| | |n| | | |]; cbn in *; try done);
    (destruct ((n <? 1) || (4 <? n)); cbn in *; try done);
    rewrite Hlast; cbn zeta; rewrite Hcool; reflexivity.
Qed.

Lemma trigger_success (k : kind) (req : body) (e : env) (s : state) ty i rs st :
  (trigger k req e s).1 = Ret (mkResponse st (JsonSuccess ty i rs)) →
  lastActionTime (trigger k req e s).2
    = <[rate_key k := clock e (S (ticks s))]> (lastActionTime s)
  ∧ ticks (trigger k req e s).2 = S (S (ticks s))
  ∧ ∃ n r ok,
      intensity req = VInt n
      ∧ new_events s (trigger k req e s).2
        = [EvRateCheck (rate_key k); EvPost (device_name k) n;
           EvRateUpdate (rate_key k); EvSave r ok]
      ∧ ok = db_save e r
      ∧ r = mkStimulus (rate_key k) (VInt n) (js_or (reason req) VNull) true None
      ∧ history (trigger k req e s).2 = history s ++ (if ok then [r] else []).
Proof.
  run_pavlok k; intros _; tidy_events.
  all: split; [reflexivity|]; split; [reflexivity|].
  all: do 3 eexists; split; [reflexivity|]; split; [reflexivity|].
  all: split; [done|]; split; [reflexivity|]; by rewrite ?app_nil_r.
Qed.

(** X5: after a trigger succeeded, a valid request of the same class whose
    clock reading is less than 5000 ms after the time the first one recorded is
    answered 429 with the seconds left rounded up; it performs the rate check
    and nothing else. *)
Theorem cooldown_follows_success
    (k : kind) (req req' : body) (e e' : env) (s : state)
    (ty : string) (i rs : jsval) (st : Z) :
  (trigger k req e s).1 = Ret (mkResponse st (JsonSuccess ty i rs)) →
  truthy (pavlokToken e') = true →
  valid (validateIntensity (intensity req')) = true →
  (k = KShock → confirm req' = VBool true) →
  clock e' (ticks (trigger k req e s).2) < clock e (S (ticks s)) + 5000 →
  ∃ msg,
    (trigger k req' e' (trigger k req e s).2).1
      = Ret (mkResponse 429
               (JsonError "Rate limit exceeded" (Some msg)
                  (Some (ceil_div (clock e (S (ticks s)) + 5000
                                   - clock e' (ticks (trigger k req e s).2)) 1000))))
    ∧ new_events (trigger k req e s).2 (trigger k req' e' (trigger k req e s).2).2
      = [EvRateCheck (rate_key k)]
    ∧ history (trigger k req' e' (trigger k req e s).2).2
      = history (trigger k req e s).2
    ∧ lastActionTime (trigger k req' e' (trigger k req e s).2).2
      = lastActionTime (trigger k req e s).2.
Proof.
  intros Hok Htok Hval Hconf Hsoon.
  destruct (trigger_success _ _ _ _ _ _ _ _ Hok) as (Hl & Ht & _).
  rewrite (trigger_in_cooldown k req' e' _ (clock e (S (ticks s)))); try done.
  - eexists. split.
    + cbn.
      replace (clock e (S (ticks s)) + 5000 - clock e' (ticks (trigger k req e s).2))
        with (RateLimiter.RATE_LIMIT_MS
              - (clock e' (ticks (trigger k req e s).2) - clock e (S (ticks s))))
        by (unfold RateLimiter.RATE_LIMIT_MS; lia).
      reflexivity.
    + split; [apply new_events_app|done].
  - rewrite Hl. apply lookup_insert_eq.
  - unfold RateLimiter.RATE_LIMIT_MS. lia.
Qed.

(** X6: once the POST to the device was issued, the status of the answer is
    decided by how the POST settled: 200 on success; 401 for a device answer
    of 401 or 403; for another device answer that has a body, the device's
    own status; for one whose body is null or undefined, 404 if that is its
    status and 500 otherwise (reading the body's message throws); 500 when
    there was no answer. *)
Theorem device_failure_status
    (k : kind) (req : body) (e : env) (s : state) (ty : string) (n : Z) :
  EvPost ty n ∈ new_events s (trigger k req e s).2 →
  ∃ body,
    (trigger k req e s).1 = Ret (mkResponse (reported_status (post e ty n)) body).
Proof.
  run_pavlok k; tidy_events; intros Hin; pick_post Hin.
  all: match goal with H : post _ _ _ = _ |- _ => rewrite H end.
  all: unfold reported_status, status_or_500; cbn.
  all: repeat match goal with
         | H : (_ =? _) = true |- _ => apply Z.eqb_eq in H; subst
         end; cbn.
  all: repeat match goal with
         | H : _ = true |- _ => rewrite H; clear H
         | H : _ = false |- _ => rewrite H; clear H
         end.
  all: try (eexists; reflexivity).
Qed.

(** One entry of the status object, when every clock reading is [t]. *)
Lemma class_status_of_run (type : string) (e : env) (s : state) (t : Z) :
  (∀ n, clock e n = t) →
  class_status_of type e s
  = (Ret (mkClassStatus
            (RateLimiter.allowed
               (RateLimiter.checkRateLimit (lastActionTime s) type t))
            (match lastActionTime s !! type with
             | Some l => if 0 <? l then Some l else None
             | None => None
             end)
            (match RateLimiter.timeRemaining
                     (RateLimiter.checkRateLimit (lastActionTime s) type t) with
             | Some n => if n =? 0 then 0 else n
             | None => 0
             end)),
     mkState (lastActionTime s) (history s)
       ((trace s ++ [EvRateCheck type]) ++ [EvRateCheck type])
       (S (S (ticks s)))).
Proof.
  intros Hclock.
  unfold class_status_of, read_lastActionTime, checkRateLimit, bind, emit,
    Date_now, ret.
  cbn [lastActionTime history trace ticks]. by rewrite !Hclock.
Qed.

(** What the rate limiter's decision at [t] says about one entry. *)
Lemma class_status_facts (l : gmap string Z) (type : string) (t : Z) :
  (RateLimiter.allowed (RateLimiter.checkRateLimit l type t) = true
   ↔ match RateLimiter.timeRemaining (RateLimiter.checkRateLimit l type t) with
     | Some n => if n =? 0 then 0 else n
     | None => 0
     end = 0)
  ∧ (∀ last, l !! type = Some last → last ≤ t →
       0 ≤ match RateLimiter.timeRemaining (RateLimiter.checkRateLimit l type t) with
           | Some n => if n =? 0 then 0 else n
           | None => 0
           end ≤ 5)
  ∧ (∀ x, match l !! type with
          | Some y => if 0 <? y then Some y else None
          | None => None
          end = Some x
          ↔ l !! type = Some x ∧ 0 < x).
Proof.
  unfold RateLimiter.checkRateLimit, RateLimiter.RATE_LIMIT_MS.
  destruct (l !! type) as [last|]; cbv zeta.
  - destruct (Z.ltb_spec (t - last) 5000) as [Hlt|Hge];
      cbn [RateLimiter.allowed RateLimiter.timeRemaining].
    + pose proof (ceil_div_spec (5000 - (t - last)) 1000 ltac:(lia)) as Hc.
      destruct (Z.eqb_spec (ceil_div (5000 - (t - last)) 1000) 0) as [E|E].
      * lia.
      * split; [split; [done|lia]|]. split.
        -- intros last' [= <-] Hle. lia.
        -- intros x. destruct (Z.ltb_spec 0 last); split.
           ++ by intros [= <-].
           ++ by intros [[= <-] _].
           ++ done.
           ++ intros [[= <-] ?]. lia.
    + split; [done|]. split; [lia|].
      intros x. destruct (Z.ltb_spec 0 last); split.
      * by intros [= <-].
      * by intros [[= <-] _].
      * done.
      * intros [[= <-] ?]. lia.
  - cbn [RateLimiter.allowed RateLimiter.timeRemaining].
    split; [done|]. split; [done|]. intros x. split; [done|]. by intros [? _].
Qed.

(** X7: at one instant [t], the status endpoint reports for each class what
    the rate limiter would decide at [t]: [canTrigger] holds exactly when the
    time remaining is 0, the time remaining is at most 5 seconds when the last
    action is not in the future, and [lastTriggered] is the recorded time when
    that is positive and null otherwise.  The endpoint changes nothing. *)
Theorem rate_limit_status_is_consistent (e : env) (s : state) (t : Z) :
  (∀ n, clock e n = t) →
  ∃ b v sh s',
    getRateLimitStatus e s = (Ret (mkRateStatus 5000 b v sh), s')
    ∧ lastActionTime s' = lastActionTime s
    ∧ history s' = history s
    ∧ Forall (λ p : string * class_status,
        canTrigger p.2
          = RateLimiter.allowed (RateLimiter.checkRateLimit (lastActionTime s) p.1 t)
        ∧ (canTrigger p.2 = true ↔ left_seconds p.2 = 0)
        ∧ (∀ last, lastActionTime s !! p.1 = Some last → last ≤ t →
             0 ≤ left_seconds p.2 ≤ 5)
        ∧ (∀ l, lastTriggered p.2 = Some l ↔ lastActionTime s !! p.1 = Some l ∧ 0 < l))
        [("beep", b); ("vibrate", v); ("shock", sh)].
Proof.
  intros Hclock.
  unfold getRateLimitStatus, bind, Date_now, ret.
  rewrite (class_status_of_run "beep" e _ t Hclock).
  rewrite (class_status_of_run "vibrate" e _ t Hclock).
  rewrite (class_status_of_run "shock" e _ t Hclock).
  cbn [lastActionTime history trace ticks].
  do 4 eexists. split; [reflexivity|].
  cbn [lastActionTime history]. split; [done|]. split; [done|].
  repeat (apply List.Forall_cons;
          [cbn [fst snd canTrigger lastTriggered left_seconds];
           split; [reflexivity | apply class_status_facts]|]).
  apply List.Forall_nil.
Qed.

Lemma device_posts_are_guarded_witness :
  EvPost "beep" 3
    ∈ new_events init_state
        (trigger KBeep (mkBody (VInt 3) VUndefined VUndefined) env_ok init_state).2
  ∧ length (filter (λ ev, is_post ev = true)
              (new_events init_state
                 (trigger KBeep (mkBody (VInt 3) VUndefined VUndefined)
                    env_ok init_state).2)) = 1%nat.
Proof.
  assert (EvPost "beep" 3
            ∈ new_events init_state
                (trigger KBeep (mkBody (VInt 3) VUndefined VUndefined)
                   env_ok init_state).2) as Hin.
  { vm_compute. apply list_elem_of_In. cbn. auto. }
  split; [exact Hin|].
  apply (device_posts_are_guarded KBeep (mkBody (VInt 3) VUndefined VUndefined)
           env_ok init_state "beep" 3 Hin).
Defined.

Lemma trigger_touches_one_class_witness :
  lastActionTime
    (trigger KBeep (mkBody (VInt 3) VUndefined VUndefined) env_ok state_cooling).2
    !! "shock"
  = lastActionTime state_cooling !! "shock".
Proof.
  apply (trigger_touches_one_class KBeep (mkBody (VInt 3) VUndefined VUndefined)
           env_ok state_cooling "shock" 10000).
  discriminate.
Defined.

Lemma invalid_intensity_is_rejected_first_witness :
  ∃ msg,
    v_error (validateIntensity (VInt 7)) = Some msg
    ∧ trigger KVibrate (mkBody (VInt 7) VUndefined VUndefined) env_ok init_state
      = (Ret (mkResponse 400 (JsonError msg None None)), init_state).
Proof.
  apply (invalid_intensity_is_rejected_first KVibrate
           (mkBody (VInt 7) VUndefined VUndefined) env_ok init_state).
  - reflexivity.
  - reflexivity.
  - discriminate.
Defined.

Lemma missing_token_fails_and_logs_witness :
  ∃ what r,
    (trigger KBeep (mkBody (VInt 9) VUndefined VUndefined)
       (mkEnv (fun _ => 10000) VUndefined (fun _ _ => HttpOk) (fun _ => true))
       init_state).1
    = Ret (mkResponse 500
             (JsonError what
                (Some "Pavlok token is required. Please set PAVLOK_TOKEN in environment variables.")
                None))
    ∧ s_intensity r = VInt 9.
Proof.
  destruct (missing_token_fails_and_logs KBeep (mkBody (VInt 9) VUndefined VUndefined)
              (mkEnv (fun _ => 10000) VUndefined (fun _ _ => HttpOk) (fun _ => true))
              init_state)
    as (what & r & E & _ & Hr & _).
  - reflexivity.
  - discriminate.
  - exists what, r. split; [exact E|]. rewrite Hr. reflexivity.
Defined.

Lemma cooldown_follows_success_witness :
  ∃ msg,
    (trigger KBeep (mkBody (VInt 2) VUndefined VUndefined) env_ok
       (trigger KBeep (mkBody (VInt 3) VUndefined VUndefined) env_ok init_state).2).1
    = Ret (mkResponse 429 (JsonError "Rate limit exceeded" (Some msg) (Some 5))).
Proof.
  destruct (cooldown_follows_success KBeep
              (mkBody (VInt 3) VUndefined VUndefined)
              (mkBody (VInt 2) VUndefined VUndefined)
              env_ok env_ok init_state "beep" (VInt 3) VNull 200)
    as (msg & E & _).
  - reflexivity.
  - reflexivity.
  - reflexivity.
  - discriminate.
  - vm_compute. reflexivity.
  - exists msg. rewrite E. vm_compute. reflexivity.
Defined.

Lemma device_failure_status_witness :
  (∃ body,
     (trigger KBeep (mkBody (VInt 3) VUndefined VUndefined) env_down init_state).1
     = Ret (mkResponse 503 body))
  ∧ (∃ body,
       (trigger KBeep (mkBody (VInt 3) VUndefined VUndefined)
          (mkEnv (fun _ => 10000) (VStr "token")
             (fun _ _ => HttpErrorNoData 502 Null) (fun _ => true))
          init_state).1
       = Ret (mkResponse 500 body)).
Proof.
  split.
  - apply (device_failure_status KBeep (mkBody (VInt 3) VUndefined VUndefined)
             env_down init_state "beep" 3).
    vm_compute. apply list_elem_of_In. cbn. auto.
  - apply (device_failure_status KBeep (mkBody (VInt 3) VUndefined VUndefined)
             (mkEnv (fun _ => 10000) (VStr "token")
                (fun _ _ => HttpErrorNoData 502 Null) (fun _ => true))
             init_state "beep" 3).
    vm_compute. apply list_elem_of_In. cbn. auto.
Defined.

Lemma rate_limit_status_is_consistent_witness :
  ∃ b v sh s',
    getRateLimitStatus env_ok state_cooling = (Ret (mkRateStatus 5000 b v sh), s')
    ∧ lastActionTime s' = lastActionTime state_cooling.
Proof.
  destruct (rate_limit_status_is_consistent env_ok state_cooling 10000)
    as (b & v & sh & s' & E & Hl & _).
  - intros n. reflexivity.
  - exists b, v, sh, s'. split; [exact E | exact Hl].
Defined.

End PavlokMore.

(** ** More on the Strava client *)

Section StravaMore.

Import Strava.





(** X9: [getAthleteStats('current')] does not pass on why the nested
    [getAthlete()] failed: whatever that error was (rate limit, expired
    token), the caller receives status 500 with neither [rateLimitExceeded]
    nor [needsRefresh], the original message kept in [originalError], and no
    request for the stats is sent. *)
Theorem stats_hide_the_athlete_error
    (n : net) (c : StravaClient) (w : world) (nowMs nowMs' : Z)
    (c1 : StravaClient) (w1 : world) (e : api_error) :
  ensure n c w nowMs = (Ok tt, c1, w1) →
  (api_getAthlete n c1 w1 nowMs').1.1 = AErr e →
  api_getAthleteStats n c w nowMs nowMs' "current"
  = (AErr (mkApiError "Failed to fetch athlete stats" (Some 500) false false
             (Some (e_message e))),
     (api_getAthlete n c1 w1 nowMs').1.2, (api_getAthlete n c1 w1 nowMs').2).
Proof.
  intros He Ha. unfold api_getAthleteStats. rewrite He. cbn.
  destruct (api_getAthlete n c1 w1 nowMs') as [[r c2] w2]. cbn in *. by subst.
Qed.

Lemma stats_hide_the_athlete_error_witness :
  (api_getAthlete net_limited c0 w0 0).1.1
  = AErr (mkApiError "Strava API rate limit exceeded" (Some 429) true false None)
  ∧ (api_getAthleteStats net_limited c0 w0 0 0 "current").1.1
    = AErr (mkApiError "Failed to fetch athlete stats" (Some 500) false false
              (Some "Strava API rate limit exceeded")).
Proof.
  split; [reflexivity|].
  rewrite (stats_hide_the_athlete_error net_limited c0 w0 0 0 c0 w0
             (mkApiError "Strava API rate limit exceeded" (Some 429) true false None)).
  - reflexivity.
  - reflexivity.
  - reflexivity.
Defined.

Lemma js_or_cases (v d : jsval) :
  (truthy v = true ∧ js_or v d = v) ∨ (truthy v = false ∧ js_or v d = d).
Proof. unfold js_or. destruct (truthy v); auto. Qed.

(** X10: a normalized activity has source "strava" and the activity's id and
    name.  Each of its distance, elevation gain and speeds is the activity's
    own value when that is truthy and 0 otherwise; each of its heart rates
    and calories is the activity's own value when truthy and null otherwise;
    its type is the activity's type when truthy and its sport type
    otherwise, its date the start date when truthy and the local start date
    otherwise; its duration is the moving time when truthy, else the elapsed
    time when truthy, else 0.  Normalizing a list maps it element by
    element, and a value that is not an array gives the empty list. *)
Theorem normalized_activity_has_defaults (a : activity) (l : list activity) :
  n_source (normalizeActivity a) = "strava"
  ∧ n_id (normalizeActivity a) = a_id a
  ∧ n_name (normalizeActivity a) = a_name a
  ∧ Forall (λ p : jsval * jsval * jsval,
              (truthy p.1.2 = true ∧ p.1.1 = p.1.2)
              ∨ (truthy p.1.2 = false ∧ p.1.1 = p.2))
      [(n_distance (normalizeActivity a), a_distance a, VInt 0);
       (n_elevation_gain (normalizeActivity a), a_total_elevation_gain a, VInt 0);
       (n_average_speed (normalizeActivity a), a_average_speed a, VInt 0);
       (n_max_speed (normalizeActivity a), a_max_speed a, VInt 0);
       (n_average_heartrate (normalizeActivity a), a_average_heartrate a, VNull);
       (n_max_heartrate (normalizeActivity a), a_max_heartrate a, VNull);
       (n_calories (normalizeActivity a), a_calories a, VNull);
       (n_type (normalizeActivity a), a_type a, a_sport_type a);
       (n_date (normalizeActivity a), a_start_date a, a_start_date_local a)]
  ∧ ((truthy (a_moving_time a) = true
      ∧ n_duration (normalizeActivity a) = a_moving_time a)
     ∨ (truthy (a_moving_time a) = false ∧ truthy (a_elapsed_time a) = true
        ∧ n_duration (normalizeActivity a) = a_elapsed_time a)
     ∨ (truthy (a_moving_time a) = false ∧ truthy (a_elapsed_time a) = false
        ∧ n_duration (normalizeActivity a) = VInt 0))
  ∧ normalizeActivities None = []
  ∧ (∀ i, normalizeActivities (Some l) !! i = normalizeActivity <$> l !! i)
  ∧ length (normalizeActivities (Some l)) = length l.
Proof.
  split; [done|]. split; [done|]. split; [done|].
  split; [|split; [|split; [|split]]].
  - repeat (apply List.Forall_cons; [apply js_or_cases|]). apply List.Forall_nil.
  - cbn. unfold js_or.
    destruct (truthy (a_moving_time a)) eqn:Hm.
    + left. split; [done|]. by rewrite ?Hm.
    + right. destruct (truthy (a_elapsed_time a)) eqn:He; [left|right];
        (split; [done|]); (split; [done|]); by rewrite ?He.
  - done.
  - intros i. cbn. apply list_lookup_fmap.
  - cbn. apply length_fmap.
Qed.

Lemma normalized_activity_has_defaults_witness :
  n_duration
    (normalizeActivity
       (mkActivity (Some "1") (VStr "Run") VUndefined (VStr "Run") VUndefined
          (VStr "2025-01-06T07:00:00") (VInt 5000) (VInt 0) (VInt 1800)
          VUndefined VUndefined VUndefined VUndefined VUndefined VUndefined))
  = VInt 1800.
Proof.
  destruct (normalized_activity_has_defaults
              (mkActivity (Some "1") (VStr "Run") VUndefined (VStr "Run") VUndefined
                 (VStr "2025-01-06T07:00:00") (VInt 5000) (VInt 0) (VInt 1800)
                 VUndefined VUndefined VUndefined VUndefined VUndefined VUndefined)
              [])
    as (_ & _ & _ & _ & [[Hm _]|[(_ & _ & Hd)|(_ & He & _)]] & _).
  - discriminate Hm.
  - exact Hd.
  - discriminate He.
Defined.

End StravaMore.

(** ** The Strava controller and the response cache *)

Section ControllerMore.

Import Cache Strava StravaController.

(** X11: the athlete endpoint builds its client before it asks the cache, so
    without a token file it answers 500 even when the profile is cached; with
    a token file and a cached profile it answers from the cache without any
    token check, refresh or request. *)
Theorem cached_athlete_needs_file_but_no_token_check
    (n : net) (w : world) (c : gmap string (CacheEntry jsval)) (now now' : Z) :
  (file w = None →
     getAthlete n w c now now'
     = (JsonFail 500 "Failed to fetch athlete profile"
          "Strava tokens not found. Run: node services/strava/oauth-setup.js"
          false false None, w, c))
  ∧ (∀ tk v, file w = Some tk → get c "strava:athlete" now = Some v →
       truthy v = true →
       getAthlete n w c now now' = (Json200 true v, w, c)).
Proof.
  unfold getAthlete, new_StravaClient, loadTokens. split.
  - intros ->. reflexivity.
  - intros tk v -> Hget Hv.
    destruct (api_getAthlete n _ _ now) as [[fetched c'] w'].
    unfold getCachedOrFetch. rewrite Hget, Hv. reflexivity.
Qed.

Lemma cached_athlete_needs_file_but_no_token_check_witness :
  getAthlete net_fine (mkWorld None [])
    (set ∅ "strava:athlete" (VObj "athlete") 3600 0) 1000 1000
  = (JsonFail 500 "Failed to fetch athlete profile"
       "Strava tokens not found. Run: node services/strava/oauth-setup.js"
       false false None,
     mkWorld None [], set ∅ "strava:athlete" (VObj "athlete") 3600 0)
  ∧ getAthlete net_limited w0
      (set ∅ "strava:athlete" (VObj "athlete") 3600 0) 1000 1000
    = (Json200 true (VObj "athlete"), w0,
       set ∅ "strava:athlete" (VObj "athlete") 3600 0).
Proof.
  split.
  - apply (cached_athlete_needs_file_but_no_token_check net_fine (mkWorld None [])).
    reflexivity.
  - apply (proj2 (cached_athlete_needs_file_but_no_token_check net_limited w0
                    (set ∅ "strava:athlete" (VObj "athlete") 3600 0) 1000 1000)
             tk0 (VObj "athlete")).
    + reflexivity.
    + vm_compute. reflexivity.
    + reflexivity.
Defined.

(** X12: when nothing usable is cached and the API answers the athlete
    request with 429, the endpoint answers 429 with [rateLimitExceeded] and
    [retryAfter: '15 minutes']; when it answers 401, the endpoint answers 401
    with [needsRefresh].  Neither failure is cached. *)
Theorem upstream_flags_reach_the_caller
    (n : net) (w : world) (c : gmap string (CacheEntry jsval)) (now now' : Z)
    (tk : tokens) (c1 : StravaClient) (w1 : world) (st : Z) (dm : option string) :
  file w = Some tk →
  (∀ v, get c "strava:athlete" now = Some v → truthy v = false) →
  ensure n (mkClient (access_token tk) (Some (refresh_token tk))
              (Some (expires_at tk)) false (access_token tk)) w now
    = (Ok tt, c1, w1) →
  api_get n "/athlete" (authorization c1) = GetFailed (WithResponse st dm) →
  (st = 429 →
     getAthlete n w c now now'
     = (JsonFail 429 "Failed to fetch athlete profile"
          "Strava API rate limit exceeded. Limits: 200 requests per 15 minutes, 2000 per day"
          true false (Some "15 minutes"),
        mkWorld (file w1) (trace w1 ++ [IoGet "/athlete" (authorization c1)]), c))
  ∧ (st = 401 →
     getAthlete n w c now now'
     = (JsonFail 401 "Failed to fetch athlete profile"
          "Strava access token needs to be refreshed. Run: node services/strava/oauth-setup.js"
          false true None,
        mkWorld (file w1) (trace w1 ++ [IoGet "/athlete" (authorization c1)]), c)).
Proof.
  intros Hfile Hmiss He Hg.
  assert (∀ fetched, getCachedOrFetch c "strava:athlete" (60 * 60) (Rejected fetched) now now'
          = mkRun (Rejected fetched) c 1%nat) as Hrun.
  { intros fetched. unfold getCachedOrFetch.
    destruct (get c "strava:athlete" now) as [v|] eqn:Hget; cbn; [|done].
    by rewrite (Hmiss v eq_refl). }
  unfold getAthlete, new_StravaClient, loadTokens. rewrite Hfile.
  unfold api_getAthlete, client_get. rewrite He, Hg.
  split; intros ->; cbn; rewrite Hrun; reflexivity.
Qed.

Lemma upstream_flags_reach_the_caller_witness :
  getAthlete net_limited w0 ∅ 0 0
  = (JsonFail 429 "Failed to fetch athlete profile"
       "Strava API rate limit exceeded. Limits: 200 requests per 15 minutes, 2000 per day"
       true false (Some "15 minutes"),
     mkWorld (Some tk0) [IoGet "/athlete" "a0"], ∅).
Proof.
  destruct (upstream_flags_reach_the_caller net_limited w0 ∅ 0 0 tk0 c0 w0 429 None)
    as [H429 _].
  - reflexivity.
  - intros v H. vm_compute in H. discriminate H.
  - reflexivity.
  - reflexivity.
  - apply H429. reflexivity.
Defined.

(** X13: [getCachedOrFetch] round trip.  After a miss and a fetch that gave
    a truthy value, a call within the duration is answered from the cache
    with [fromCache: true] and without calling the fetch function; a call
    after the duration has passed calls the fetch function again; a fetch
    that rejects leaves the cache as it was. *)
Theorem cached_fetch_round_trip
    (c : gmap string (CacheEntry jsval)) (k : string) (d : Z) (v : jsval)
    (now now' t t' : Z) (fetched : settled jsval) :
  0 < d →
  (∀ w, get c k now = Some w → truthy w = false) →
  truthy v = true →
  (now' ≤ t → t < now' + 1000 * d →
     getCachedOrFetch
       (cache_after (getCachedOrFetch c k d (Fulfilled v) now now')) k d fetched t t'
     = mkRun (Fulfilled (mkResult v true))
         (cache_after (getCachedOrFetch c k d (Fulfilled v) now now')) 0%nat)
  ∧ (now' + 1000 * d < t →
     fetch_calls
       (getCachedOrFetch
          (cache_after (getCachedOrFetch c k d (Fulfilled v) now now')) k d fetched t t')
     = 1%nat)
  ∧ (∀ m, getCachedOrFetch c k d (Rejected m) now now' = mkRun (Rejected m) c 1%nat).
Proof.
  intros Hd Hmiss Hv.
  assert (∀ f, getCachedOrFetch c k d f now now'
             = match f with
               | Fulfilled x => mkRun (Fulfilled (mkResult x false)) (set c k x d now') 1%nat
               | Rejected m => mkRun (Rejected m) c 1%nat
               end) as Hrun.
  { intros f. unfold getCachedOrFetch.
    destruct (get c k now) as [w|] eqn:Hget; cbn; [|done].
    by rewrite (Hmiss w eq_refl). }
  rewrite !Hrun. cbn. split; [|split].
  - intros H1 H2. unfold getCachedOrFetch. rewrite get_set_eq.
    destruct (Z.leb_spec (now' + 1000 * d) t); [lia|]. by rewrite Hv.
  - intros H1. unfold getCachedOrFetch. rewrite get_set_eq.
    destruct (Z.leb_spec (now' + 1000 * d) t); [|lia]. cbn. by destruct fetched.
  - intros m. apply (Hrun (Rejected m)).
Qed.

Lemma cached_fetch_round_trip_witness :
  getCachedOrFetch
    (cache_after (getCachedOrFetch ∅ "strava:athlete" 3600 (Fulfilled (VObj "athlete")) 0 5))
    "strava:athlete" 3600 (Rejected "down") 1000 1005
  = mkRun (Fulfilled (mkResult (VObj "athlete") true))
      (cache_after (getCachedOrFetch ∅ "strava:athlete" 3600 (Fulfilled (VObj "athlete")) 0 5))
      0%nat.
Proof.
  apply (cached_fetch_round_trip ∅ "strava:athlete" 3600 (VObj "athlete") 0 5 1000 1005
           (Rejected "down")).
  - lia.
  - intros w H. vm_compute in H. discriminate H.
  - reflexivity.
  - lia.
  - lia.
Defined.

End ControllerMore.

Section MiddlewareMore.

Import Cache.

(** X14: the response cache middleware caches GET requests only.  Any other
    method passes through with [res.json] untouched.  A GET that misses
    passes through with [res.json] replaced, and the body then sent is stored
    under the key of the request's URL and nowhere else; the same GET within
    the duration is answered with that body without reaching the handler. *)
Theorem middleware_caches_get_only
    (duration : Z) (c : gmap string (CacheEntry jsval)) (req : request)
    (body : jsval) (now now' t : Z) :
  (method req ≠ "GET" →
     cacheMiddleware duration c req now = Next None
     ∧ res_json None c body now' = c)
  ∧ (method req = "GET" →
     (∀ w, get c ("__express__" +:+ request_url req) now = Some w → truthy w = false) →
     ∃ hook,
       cacheMiddleware duration c req now = Next (Some hook)
       ∧ ∀ k, k ≠ "__express__" +:+ request_url req →
           res_json (Some hook) c body now' !! k = c !! k)
  ∧ (method req = "GET" → 0 < duration → truthy body = true →
     (∀ w, get c ("__express__" +:+ request_url req) now = Some w → truthy w = false) →
     now' ≤ t → t < now' + 1000 * duration →
     ∀ hook, cacheMiddleware duration c req now = Next (Some hook) →
       cacheMiddleware duration (res_json (Some hook) c body now') req t
       = Respond body).
Proof.
  unfold cacheMiddleware. split; [|split].
  - intros Hm. split; [|done].
    destruct (String.eqb_spec (method req) "GET"); [done|reflexivity].
  - intros -> Hmiss. cbn.
    destruct (get c _ now) as [w|] eqn:Hget.
    + rewrite (Hmiss w eq_refl). eexists. split; [reflexivity|].
      intros k Hk. cbn. unfold set. by rewrite lookup_insert_ne.
    + cbn. eexists. split; [reflexivity|].
      intros k Hk. cbn. unfold set. by rewrite lookup_insert_ne.
  - intros -> Hd Hb Hmiss H1 H2 hook. cbn.
    destruct (get c _ now) as [w|] eqn:Hget.
    + rewrite (Hmiss w eq_refl). intros [= <-]. cbn. rewrite get_set_eq.
      destruct (Z.leb_spec (now' + 1000 * duration) t); [lia|]. by rewrite Hb.
    + cbn. intros [= <-]. cbn. rewrite get_set_eq.
      destruct (Z.leb_spec (now' + 1000 * duration) t); [lia|]. by rewrite Hb.
Qed.

Lemma middleware_caches_get_only_witness :
  cacheMiddleware 60 ∅ (mkRequest "POST" (Some "/api/unified/today") "/today") 0
  = Next None
  ∧ cacheMiddleware 60
      (res_json (Some ("__express__/api/unified/today", 60)) ∅ (VObj "today") 5)
      (mkRequest "GET" (Some "/api/unified/today") "/today") 1000
    = Respond (VObj "today").
Proof.
  split.
  - apply (middleware_caches_get_only 60 ∅
             (mkRequest "POST" (Some "/api/unified/today") "/today") VNull 0 0 0).
    discriminate.
  - apply (proj2 (proj2 (middleware_caches_get_only 60 ∅
             (mkRequest "GET" (Some "/api/unified/today") "/today")
             (VObj "today") 0 5 1000))).
    + reflexivity.
    + lia.
    + reflexivity.
    + intros w H. vm_compute in H. discriminate H.
    + lia.
    + lia.
    + reflexivity.
Defined.

End MiddlewareMore.

(** ** More on the calendar service *)

Section CalendarCacheMore.

Import Cache Calendar.

Lemma append_inj (p a b : string) : p +:+ a = p +:+ b → a = b.
Proof. induction p as [|ch p IH]; cbn; [done|]. intros [= H]. by apply IH. Qed.

Lemma getCacheKey_inj (d d' : string) : getCacheKey d = getCacheKey d' → d = d'.
Proof. apply append_inj. Qed.

(** X15: a read of a day that is not cached fetches the day once and
    caches the events under that day only; a read of the same day within the
    cache duration returns them without fetching; a failed fetch is passed on
    and nothing is cached. *)
Theorem calendar_reads_are_cached_per_day
    (c : gmap string (CacheEntry (list gevent))) (initialized : bool)
    (listing listing' : string → list_result) (d : string)
    (now now' t t' : Z) :
  getCachedEvents c d now = None →
  (∀ events, fetchEventsFromGoogle initialized listing d = Fulfilled events →
     getEventsWithCache c initialized listing d now now'
       = mkEventsRun (Fulfilled events) (setCachedEvents c d events now') 1
     ∧ (now' ≤ t → t < now' + 1000 * CACHE_DURATION →
        ∀ init', getEventsWithCache (setCachedEvents c d events now') init' listing' d t t'
          = mkEventsRun (Fulfilled events) (setCachedEvents c d events now') 0)
     ∧ (∀ d', d' ≠ d →
        getCachedEvents (setCachedEvents c d events now') d' t = getCachedEvents c d' t))
  ∧ (∀ m, fetchEventsFromGoogle initialized listing d = Rejected m →
       getEventsWithCache c initialized listing d now now' = mkEventsRun (Rejected m) c 1).
Proof.
  intros Hmiss. unfold getEventsWithCache. rewrite Hmiss. split.
  - intros events ->. split; [done|]. split.
    + intros H1 H2 init'. unfold getCachedEvents, setCachedEvents.
      rewrite get_set_eq. destruct (Z.leb_spec (now' + 1000 * CACHE_DURATION) t); [lia|done].
    + intros d' Hd. unfold getCachedEvents, setCachedEvents. apply get_set_ne.
      intros H. by apply getCacheKey_inj in H.
  - intros m ->. done.
Qed.

Lemma elem_of_keys {V} (c : gmap string (CacheEntry V)) k :
  k ∈ keys c ↔ is_Some (c !! k).
Proof.
  unfold keys. rewrite list_elem_of_fmap. split.
  - intros ([k' e] & -> & H). apply elem_of_map_to_list in H. by exists e.
  - intros [e H]. exists (k, e). split; [done|]. by apply elem_of_map_to_list.
Qed.

Lemma clearAllCalendarCache_lookup (c : gmap string (CacheEntry (list gevent))) k :
  clearAllCalendarCache c !! k
  = if String.prefix CACHE_PREFIX k then None else c !! k.
Proof.
  unfold clearAllCalendarCache. cbn zeta.
  set (ks := List.filter _ (keys c)).
  assert (∀ k, k ∈ ks ↔ String.prefix CACHE_PREFIX k = true ∧ is_Some (c !! k)) as Hks.
  { intros k'. subst ks. rewrite list_elem_of_In, List.filter_In, <- list_elem_of_In, elem_of_keys.
    tauto. }
  destruct (String.prefix CACHE_PREFIX k) eqn:Hp.
  - destruct (0 <? length ks)%nat eqn:Hlen.
    + unfold del_list. destruct (c !! k) as [e|] eqn:Hk.
      * apply lookup_foldr_delete. apply Hks. eauto.
      * rewrite lookup_foldr_delete_not_elem_of; [done|].
        intros Hin. apply Hks in Hin as [_ [? ?]]. congruence.
    + destruct (c !! k) as [e|] eqn:Hk; [|done].
      assert (k ∈ ks) as Hin by (apply Hks; eauto).
      destruct ks; [by apply elem_of_nil in Hin|done].
  - destruct (0 <? length ks)%nat; [|done].
    unfold del_list. apply lookup_foldr_delete_not_elem_of.
    intros Hin. apply Hks in Hin as [? _]. congruence.
Qed.

(** X16: deleting an event succeeds exactly when the service is
    initialized and the API call succeeds; it then leaves no calendar day
    cached and keeps every entry outside the calendar prefix.  A failed
    delete leaves the cache as it was. *)
Theorem delete_clears_every_calendar_entry
    (c : gmap string (CacheEntry (list gevent))) (initialized : bool)
    (delete : string → delete_result) (eventId : string) (d : string) (t : Z) :
  ((delete_events c initialized delete eventId).1 = D200 →
     getCachedEvents (delete_events c initialized delete eventId).2 d t = None
     ∧ ∀ k, String.prefix CACHE_PREFIX k = false →
         (delete_events c initialized delete eventId).2 !! k = c !! k)
  ∧ ((delete_events c initialized delete eventId).1 ≠ D200 →
     (delete_events c initialized delete eventId).2 = c)
  ∧ ((delete_events c initialized delete eventId).1 = D200
     ↔ initialized = true ∧ delete eventId = DeleteOk).
Proof.
  unfold delete_events.
  destruct initialized; cbn; [|by repeat split; try done; intros []].
  destruct (delete eventId) as [|code msg]; cbn.
  - split; [|split]; try done.
    intros _. split.
    + unfold getCachedEvents, get. rewrite clearAllCalendarCache_lookup.
      unfold getCacheKey. by rewrite prefix_append.
    + intros k Hk. by rewrite clearAllCalendarCache_lookup, Hk.
  - destruct (bool_decide (code = Some 404)); cbn; repeat split; try done; intros []; done.
Qed.

End CalendarCacheMore.

Section CalendarMore.


Import Cache Calendar.

Variable js_Date : jsval → option Z.
Variable formatDate : option Z → string.
Variable trim : string → string.

(** What a request that passes validation holds. *)
Lemma valid_event_fields (eventData : eventData) :
  validateEventData js_Date trim eventData = Some [] →
  ∃ s st en,
    d_summary eventData = VStr s ∧ s ≠ "" ∧ trim s ≠ ""
    ∧ truthy (d_start eventData) = true
    ∧ js_Date (d_start eventData) = Some st
    ∧ truthy (d_end eventData) = true
    ∧ js_Date (d_end eventData) = Some en
    ∧ st < en.
Proof.
  unfold validateEventData, summary_missing.
  destruct (truthy (d_summary eventData)) eqn:Hs; cbn.
  - destruct (d_summary eventData) as [| | | | | |s|] eqn:Hsum; try done.
    destruct (String.eqb_spec (trim s) "") as [Ht|Ht]; cbn;
    destruct (truthy (d_start eventData)) eqn:Hst; cbn;
    destruct (js_Date (d_start eventData)) as [st|] eqn:Hjs; cbn;
    destruct (truthy (d_end eventData)) eqn:Hen; cbn;
    destruct (js_Date (d_end eventData)) as [en|] eqn:Hje; cbn;
    try destruct (Z.leb_spec en st); cbn; intros Hnil; simplify_eq.
    exists s, st, en. repeat split; try done; try lia.
    intros ->. cbn in Hs. done.
  - destruct (truthy (d_start eventData)) eqn:Hst; cbn;
    destruct (js_Date (d_start eventData)) as [st|] eqn:Hjs; cbn;
    destruct (truthy (d_end eventData)) eqn:Hen; cbn;
    destruct (js_Date (d_end eventData)) as [en|] eqn:Hje; cbn;
    try destruct (Z.leb_spec en st); cbn; intros Hnil; simplify_eq.
Qed.

(** X17: [validateEventData] returns no error exactly for a request whose
    summary is a string that is not blank, whose start and end are present
    and parse as dates, and whose end is strictly after its start. *)
Theorem validation_accepts_exactly_well_formed_events (eventData : eventData) :
  validateEventData js_Date trim eventData = Some []
  ↔ ∃ s st en,
      d_summary eventData = VStr s ∧ s ≠ "" ∧ trim s ≠ ""
      ∧ truthy (d_start eventData) = true
      ∧ js_Date (d_start eventData) = Some st
      ∧ truthy (d_end eventData) = true
      ∧ js_Date (d_end eventData) = Some en
      ∧ st < en.
Proof.
  split; [apply valid_event_fields|].
  unfold validateEventData, summary_missing.
  intros (s & st & en & Hsum & Hs & Ht & Hst & Hjs & Hen & Hje & Hlt).
  rewrite Hsum, Hst, Hen, Hjs, Hje. cbn.
  destruct (String.eqb_spec s "") as [|_]; [done|]. cbn.
  destruct (String.eqb_spec (trim s) "") as [|_]; [done|]. cbn.
  destruct (Z.leb_spec en st); [lia|done].
Qed.

(** X18: creating and updating an event call the calendar API only for a
    request that passed validation: a request with validation errors is
    answered 400 with the errors and the cache untouched, an answer of 201 or
    200 means the request was valid, the service initialized, and the API was
    called with the resource built from the request; that resource carries
    the request's summary, start and end. *)
Theorem writes_reach_the_calendar_only_when_valid
    (c : gmap string (CacheEntry (list gevent))) (initialized : bool)
    (insert : resource → api_result) (update : string → resource → api_result)
    (eventId : string) (eventData : eventData) :
  (∀ errors, validateEventData js_Date trim eventData = Some errors →
     errors ≠ [] →
     post_events js_Date formatDate trim c initialized insert eventData
       = (R400 errors, c)
     ∧ put_events js_Date formatDate trim c initialized update eventId eventData
       = (R400 errors, c))
  ∧ (∀ eid data,
       (post_events js_Date formatDate trim c initialized insert eventData).1
         = R201 eid data →
       validateEventData js_Date trim eventData = Some []
       ∧ initialized = true
       ∧ insert (buildEventResource eventData) = ApiOk data
       ∧ eid = id data)
  ∧ (∀ data,
       (put_events js_Date formatDate trim c initialized update eventId eventData).1
         = R200 data →
       validateEventData js_Date trim eventData = Some []
       ∧ initialized = true
       ∧ update eventId (buildEventResource eventData) = ApiOk data)
  ∧ (validateEventData js_Date trim eventData = Some [] →
     r_summary (buildEventResource eventData) = d_summary eventData
     ∧ r_start (buildEventResource eventData)
       = Some (mkTimeRef (d_start eventData) (when_truthy (d_timeZone eventData)))
     ∧ r_end (buildEventResource eventData)
       = Some (mkTimeRef (d_end eventData) (when_truthy (d_timeZone eventData)))).
Proof.
  split; [|split; [|split]].
  - intros errors Hv Hne. unfold post_events, put_events. rewrite Hv.
    destruct errors; [done|]. done.
  - intros eid data. unfold post_events.
    destruct (validateEventData js_Date trim eventData) as [[|e errors]|]; cbn; try done.
    destruct initialized; cbn; [|done].
    destruct (insert _) as [d|code msg] eqn:Hi; cbn; [|done].
    intros [= <- <-]. done.
  - intros data. unfold put_events.
    destruct (validateEventData js_Date trim eventData) as [[|e errors]|]; cbn; try done.
    destruct initialized; cbn; [|done].
    destruct (update _ _) as [d|code msg] eqn:Hi; cbn.
    + intros [= <-]. done.
    + by destruct (bool_decide (code = Some 404)).
  - intros Hv. apply valid_event_fields in Hv
      as (s & st & en & Hsum & Hs & Ht & Hst & Hjs & Hen & Hje & Hlt).
    unfold buildEventResource. cbn. by rewrite Hst, Hen.
Qed.

(** X19: after an event was created, the next read of the day it starts on
    fetches the day again and returns what the calendar API lists, while any
    other cached day is still served from the cache. *)
Theorem created_event_is_fetched_on_next_read
    (c : gmap string (CacheEntry (list gevent))) (initialized : bool)
    (insert : resource → api_result) (eventData : eventData)
    (listing : string → list_result) (eid : string) (data : gevent) (t t' : Z) :
  (post_events js_Date formatDate trim c initialized insert eventData).1
    = R201 eid data →
  list_calls
    (getEventsWithCache
       (post_events js_Date formatDate trim c initialized insert eventData).2
       initialized listing (getDateKey js_Date formatDate (d_start eventData)) t t')
  = 1%nat
  ∧ (∀ items, listing (getDateKey js_Date formatDate (d_start eventData)) = ListOk (Some items) →
       events_result
         (getEventsWithCache
            (post_events js_Date formatDate trim c initialized insert eventData).2
            initialized listing (getDateKey js_Date formatDate (d_start eventData)) t t')
       = Fulfilled items)
  ∧ (∀ d' events, d' ≠ getDateKey js_Date formatDate (d_start eventData) →
       getCachedEvents c d' t = Some events →
       getEventsWithCache
         (post_events js_Date formatDate trim c initialized insert eventData).2
         initialized listing d' t t'
       = mkEventsRun (Fulfilled events)
           (post_events js_Date formatDate trim c initialized insert eventData).2 0).
Proof.
  intros Hok.
  assert (initialized = true) as ->.
  { revert Hok. unfold post_events.
    destruct (validateEventData js_Date trim eventData) as [[|e errors]|]; cbn; try done.
    by destruct initialized. }
  rewrite post_events_cache, Hok.
  unfold getEventsWithCache. rewrite clearDateCache_eq.
  split; [|split].
  - unfold fetchEventsFromGoogle. cbn. by destruct (listing _).
  - intros items Hl. unfold fetchEventsFromGoogle. cbn. by rewrite Hl.
  - intros d' events Hd Hc.
    assert (getCachedEvents (clearDateCache c (getDateKey js_Date formatDate (d_start eventData))) d' t
            = Some events) as ->; [|done].
    rewrite <- Hc. unfold getCachedEvents, clearDateCache. apply get_del_ne.
    intros H. apply getCacheKey_inj in H. congruence.
Qed.

End CalendarMore.

Lemma validation_accepts_exactly_well_formed_events_witness :
  Calendar.validateEventData Calendar.sample_js_Date Calendar.sample_trim
    Calendar.create_e2 = Some [].
Proof.
  apply (proj2 (validation_accepts_exactly_well_formed_events
                  Calendar.sample_js_Date Calendar.sample_trim Calendar.create_e2)).
  exists "Review", 1736157600000, 1736161200000.
  repeat split; try reflexivity; discriminate.
Defined.

Lemma writes_reach_the_calendar_only_when_valid_witness :
  Calendar.validateEventData Calendar.sample_js_Date Calendar.sample_trim
    Calendar.create_e2 = Some []
  ∧ Calendar.r_summary (Calendar.buildEventResource Calendar.create_e2)
    = VStr "Review".
Proof.
  destruct (writes_reach_the_calendar_only_when_valid Calendar.sample_js_Date
              Calendar.sample_formatDate Calendar.sample_trim
              Calendar.cache_two_days true (fun _ => Calendar.ApiOk Calendar.e2)
              (fun _ _ => Calendar.ApiOk Calendar.e2) "e2" Calendar.create_e2)
    as (_ & Hpost & _ & Hres).
  destruct (Hpost "e2" Calendar.e2) as (Hv & _).
  { vm_compute. reflexivity. }
  split; [exact Hv|].
  destruct (Hres Hv) as (Hs & _). rewrite Hs. reflexivity.
Defined.

Lemma calendar_reads_are_cached_per_day_witness :
  Calendar.getEventsWithCache
    (Calendar.setCachedEvents ∅ "2025-01-06" [Calendar.e1_before] 5)
    false (fun _ => Calendar.ListFailed "down") "2025-01-06" 1000 1005
  = Calendar.mkEventsRun (Cache.Fulfilled [Calendar.e1_before])
      (Calendar.setCachedEvents ∅ "2025-01-06" [Calendar.e1_before] 5) 0.
Proof.
  destruct (calendar_reads_are_cached_per_day ∅ true
              (fun _ => Calendar.ListOk (Some [Calendar.e1_before]))
              (fun _ => Calendar.ListFailed "down") "2025-01-06" 0 5 1000 1005)
    as (Hok & _).
  - reflexivity.
  - destruct (Hok [Calendar.e1_before]) as (_ & Hagain & _).
    + reflexivity.
    + apply Hagain.
      * lia.
      * vm_compute. reflexivity.
Defined.

Lemma created_event_is_fetched_on_next_read_witness :
  Calendar.list_calls
    (Calendar.getEventsWithCache
       (Calendar.post_events Calendar.sample_js_Date Calendar.sample_formatDate
          Calendar.sample_trim Calendar.cache_two_days true
          (fun _ => Calendar.ApiOk Calendar.e2) Calendar.create_e2).2
       true (fun _ => Calendar.ListOk (Some [Calendar.e1_before; Calendar.e2]))
       "2025-01-06" 1000 1005)
  = 1%nat.
Proof.
  apply (created_event_is_fetched_on_next_read Calendar.sample_js_Date
           Calendar.sample_formatDate Calendar.sample_trim
           Calendar.cache_two_days true (fun _ => Calendar.ApiOk Calendar.e2)
           Calendar.create_e2
           (fun _ => Calendar.ListOk (Some [Calendar.e1_before; Calendar.e2]))
           "e2" Calendar.e2 1000 1005).
  vm_compute. reflexivity.
Defined.

Lemma delete_clears_every_calendar_entry_witness :
  Calendar.getCachedEvents
    (Calendar.delete_events Calendar.cache_two_days true
       (fun _ => Calendar.DeleteOk) "e1").2 "2025-01-06" 1000
  = None.
Proof.
  apply (delete_clears_every_calendar_entry Calendar.cache_two_days true
           (fun _ => Calendar.DeleteOk) "e1" "2025-01-06" 1000).
  reflexivity.
Defined.

(** ** Dashboard endpoints, logger and API key check *)

Section UnifiedMore.


Import Cache Unified.

Context {Event Activity : Type}.
Variable filterTasks : list Task → string → jsval → list Task.
Variable sortTasks : list Task → list Task.
Variable calculateFitnessSummary : list Activity → @FitnessSummary Activity.
Variable isoDate : Z → string.

Lemma getToday_cold
    (c : gmap string (CacheEntry aggregate)) (now now' : Z)
    (cal : settled (list Event)) (tasks : settled (list Task))
    (acts : settled (list Activity)) :
  get c "unified:today" now = None →
  ∃ r,
    getToday filterTasks sortTasks calculateFitnessSummary isoDate c now
      cal tasks acts now'
    = (Json200 false (Today r), set c "unified:today" (Today r) CACHE_DURATION now')
    ∧ today_errors r
      = errors_key (rejection "calendar" cal ++ rejection "todoist" tasks
                    ++ rejection "strava" acts).
Proof.
  intros Hcold. unfold getToday. rewrite Hcold.
  destruct cal, tasks, acts; cbn; eexists; split; reflexivity.
Qed.

(** X20: the dashboard built on a miss is cached as it is, errors
    included: for the next five minutes every request receives that same
    aggregate with [fromCache: true], whatever the sources would answer now;
    once the five minutes have passed the aggregate is built again from the
    sources' current answers. *)
Theorem partial_dashboard_is_served_from_cache
    (c : gmap string (CacheEntry aggregate)) (now now' t t' : Z)
    (cal cal' : settled (list Event)) (tasks tasks' : settled (list Task))
    (acts acts' : settled (list Activity)) :
  get c "unified:today" now = None →
  ∃ r,
    getToday filterTasks sortTasks calculateFitnessSummary isoDate c now
      cal tasks acts now'
    = (Json200 false (Today r), set c "unified:today" (Today r) CACHE_DURATION now')
    ∧ today_errors r
      = errors_key (rejection "calendar" cal ++ rejection "todoist" tasks
                    ++ rejection "strava" acts)
    ∧ (now' ≤ t → t < now' + 300000 →
       getToday filterTasks sortTasks calculateFitnessSummary isoDate
         (set c "unified:today" (Today r) CACHE_DURATION now') t cal' tasks' acts' t'
       = (Json200 true (Today r), set c "unified:today" (Today r) CACHE_DURATION now'))
    ∧ (now' + 300000 < t →
       ∃ r',
         (getToday filterTasks sortTasks calculateFitnessSummary isoDate
            (set c "unified:today" (Today r) CACHE_DURATION now') t cal' tasks' acts' t').1
         = Json200 false (Today r')
         ∧ today_errors r'
           = errors_key (rejection "calendar" cal' ++ rejection "todoist" tasks'
                         ++ rejection "strava" acts')).
Proof.
  intros Hcold.
  destruct (getToday_cold c now now' cal tasks acts Hcold) as (r & E & Herr).
  exists r. split; [exact E|]. split; [exact Herr|]. split.
  - intros H1 H2. unfold getToday at 1. rewrite get_set_eq.
    unfold CACHE_DURATION. destruct (Z.leb_spec (now' + 1000 * (5 * 60)) t); [lia|done].
  - intros H1.
    destruct (getToday_cold (set c "unified:today" (Today r) CACHE_DURATION now')
                t t' cal' tasks' acts') as (r' & E' & Herr').
    { rewrite get_set_eq. unfold CACHE_DURATION.
      destruct (Z.leb_spec (now' + 1000 * (5 * 60)) t); [done|lia]. }
    exists r'. by rewrite E'.
Qed.

(** X21: on a miss the fitness summary always answers 200 and is cached: a
    period whose fetch failed is reported with zero count, distance and
    duration and adds an entry to [errors] naming the period, the recent
    activities are the first five of the seven-day list, and [errors] is
    absent when both fetches succeeded. *)
Theorem fitness_summary_tolerates_failures
    (c : gmap string (CacheEntry (@FitnessResult Activity))) (now now' : Z)
    (last7Days last30Days : settled (list Activity)) :
  get c "unified:fitness" now = None →
  ∃ r,
    getFitnessSummary calculateFitnessSummary c now last7Days last30Days now'
    = (Fitness200 false r, set c "unified:fitness" r CACHE_DURATION now')
    ∧ last_7_days r
      = match last7Days with
        | Fulfilled a => summary_of calculateFitnessSummary a
        | Rejected _ => mkPeriodSummary (VInt 0) (VInt 0) (VInt 0)
        end
    ∧ last_30_days r
      = match last30Days with
        | Fulfilled a => summary_of calculateFitnessSummary a
        | Rejected _ => mkPeriodSummary (VInt 0) (VInt 0) (VInt 0)
        end
    ∧ recent_activities r
      = match last7Days with Fulfilled a => take 5 a | Rejected _ => [] end
    ∧ (length (recent_activities r) ≤ 5)%nat
    ∧ fitness_errors r
      = match last7Days, last30Days with
        | Fulfilled _, Fulfilled _ => None
        | Rejected m, Fulfilled _ => Some [mkPeriodError "7_days" m]
        | Fulfilled _, Rejected m => Some [mkPeriodError "30_days" m]
        | Rejected m, Rejected m' =>
            Some [mkPeriodError "7_days" m; mkPeriodError "30_days" m']
        end.
Proof.
  intros Hcold. unfold getFitnessSummary. rewrite Hcold.
  destruct last7Days as [a|m], last30Days as [a'|m']; cbn;
    eexists; (split; [reflexivity|]); cbn; repeat split; try done; try lia.
  all: rewrite length_take; lia.
Qed.

(** X22: on a miss the tasks endpoint answers 500 and caches nothing when
    the fetch failed; when it succeeded it answers the filtered and sorted
    tasks with their count, and caches the answer under the key of the
    filter and completed parameters, from which the same request is served
    for the next five minutes. *)
Theorem tasks_are_cached_only_on_success
    (c : gmap string (CacheEntry TasksResult)) (now now' t t' : Z)
    (filter completed : option string) (fetched fetched' : settled (list Task)) :
  get c (tasks_cacheKey filter completed) now = None →
  (∀ m, fetched = Rejected m →
     getTasks filterTasks sortTasks c now filter completed fetched now'
     = (Tasks500 "Failed to fetch tasks" m, c))
  ∧ (∀ allTasks, fetched = Fulfilled allTasks →
     ∃ r,
       getTasks filterTasks sortTasks c now filter completed fetched now'
       = (Tasks200 false r, set c (tasks_cacheKey filter completed) r CACHE_DURATION now')
       ∧ tasks r = sortTasks (filterTasks allTasks (default "all" filter)
                                (completedFilter completed))
       ∧ tasks_count r = length (tasks r)
       ∧ (now' ≤ t → t < now' + 300000 →
          getTasks filterTasks sortTasks
            (set c (tasks_cacheKey filter completed) r CACHE_DURATION now')
            t filter completed fetched' t'
          = (Tasks200 true r,
             set c (tasks_cacheKey filter completed) r CACHE_DURATION now'))).
Proof.
  intros Hcold. unfold getTasks. rewrite Hcold. split.
  - intros m ->. done.
  - intros allTasks ->. eexists. split; [reflexivity|]. cbn.
    split; [done|]. split; [done|].
    intros H1 H2. rewrite get_set_eq. unfold CACHE_DURATION.
    destruct (Z.leb_spec (now' + 1000 * (5 * 60)) t); [lia|done].
Qed.

End UnifiedMore.

Lemma partial_dashboard_is_served_from_cache_witness :
  ∃ r,
    Unified.getToday Unified.sample_filterTasks Unified.sample_sortTasks
      Unified.sample_summary Unified.sample_isoDate
      (Cache.set ∅ "unified:today" (Unified.Today r) Unified.CACHE_DURATION 5) 1000
      (Cache.Fulfilled ["standup"]) (Cache.Fulfilled []) (Cache.Fulfilled ["run"]) 1005
    = (Unified.Json200 true (Unified.Today r),
       Cache.set ∅ "unified:today" (Unified.Today r) Unified.CACHE_DURATION 5)
    ∧ Unified.today_errors r = Some [Unified.mkErrorEntry "todoist" "timeout"].
Proof.
  destruct (partial_dashboard_is_served_from_cache Unified.sample_filterTasks
              Unified.sample_sortTasks Unified.sample_summary Unified.sample_isoDate
              ∅ 0 5 1000 1005
              (Cache.Fulfilled ["standup"]) (Cache.Fulfilled ["standup"])
              (Cache.Rejected "timeout") (Cache.Fulfilled [])
              (Cache.Fulfilled ["run"]) (Cache.Fulfilled ["run"]))
    as (r & _ & Herr & Hhit & _).
  - reflexivity.
  - exists r. split; [apply Hhit; lia | exact Herr].
Defined.

Lemma fitness_summary_tolerates_failures_witness :
  ∃ r,
    Unified.getFitnessSummary Unified.sample_summary ∅ 0
      (Cache.Rejected "rate limited") (Cache.Fulfilled ["run"; "ride"]) 5
    = (Unified.Fitness200 false r,
       Cache.set ∅ "unified:fitness" r Unified.CACHE_DURATION 5)
    ∧ Unified.recent_activities r = []
    ∧ Unified.fitness_errors r
      = Some [Unified.mkPeriodError "7_days" "rate limited"].
Proof.
  destruct (fitness_summary_tolerates_failures Unified.sample_summary ∅ 0 5
              (Cache.Rejected "rate limited") (Cache.Fulfilled ["run"; "ride"]))
    as (r & E & _ & _ & Hrec & _ & Herr).
  - reflexivity.
  - exists r. split; [exact E|]. split; [exact Hrec | exact Herr].
Defined.

Lemma tasks_are_cached_only_on_success_witness :
  Unified.getTasks Unified.sample_filterTasks Unified.sample_sortTasks ∅ 0
    (Some "today") None (Cache.Rejected "timeout") 5
  = (Unified.Tasks500 "Failed to fetch tasks" "timeout", ∅).
Proof.
  apply (tasks_are_cached_only_on_success Unified.sample_filterTasks
           Unified.sample_sortTasks ∅ 0 5 0 0 (Some "today") None
           (Cache.Rejected "timeout") (Cache.Rejected "timeout")).
  - reflexivity.
  - reflexivity.
Defined.

Section LoggerMore.


Import Logger.

(** X23: the logger's levels nest: a level outside the table as
    [LOG_LEVEL] silences everything; otherwise errors are always logged,
    whatever is logged at a level is logged at every level of lower number,
    and debug messages appear only when the level is debug. *)
Theorem log_levels_nest (LOG_LEVEL : option string) (level : string) :
  (levelPriority !! currentLogLevel LOG_LEVEL = None → shouldLog LOG_LEVEL level = false)
  ∧ (is_Some (levelPriority !! currentLogLevel LOG_LEVEL) →
     shouldLog LOG_LEVEL "error" = true)
  ∧ (∀ lower p q, levelPriority !! level = Some p → levelPriority !! lower = Some q →
       q ≤ p → shouldLog LOG_LEVEL level = true → shouldLog LOG_LEVEL lower = true)
  ∧ (shouldLog LOG_LEVEL "debug" = true → currentLogLevel LOG_LEVEL = "debug").
Proof.
  unfold shouldLog. split; [|split; [|split]].
  - intros ->. by destruct (levelPriority !! level).
  - intros [q Hq]. rewrite Hq.
    assert (levelPriority !! "error" = Some 0) as -> by (vm_compute; reflexivity).
    assert (0 ≤ q); [|by destruct (Z.leb_spec 0 q); [|lia]].
    unfold levelPriority in Hq.
    repeat (apply lookup_insert_Some in Hq as [[_ <-]|[_ Hq]]; [lia|]).
    by rewrite lookup_empty in Hq.
  - intros lower p q -> ->. destruct (levelPriority !! currentLogLevel LOG_LEVEL) as [r|]; [|done].
    intros Hle Hp. apply Z.leb_le in Hp. apply Z.leb_le. lia.
  - assert (levelPriority !! "debug" = Some 3) as -> by (vm_compute; reflexivity).
    destruct (levelPriority !! currentLogLevel LOG_LEVEL) as [q|] eqn:Hq; [|done].
    intros Hle. apply Z.leb_le in Hle.
    unfold levelPriority in Hq.
    repeat (apply lookup_insert_Some in Hq as [[Hk <-]|[_ Hq]]; [try lia; by symmetry|]).
    by rewrite lookup_empty in Hq.
Qed.

Lemma log_levels_nest_witness :
  Logger.shouldLog (Some "warn") "error" = true
  ∧ Logger.shouldLog (Some "verbose") "error" = false.
Proof.
  split.
  - apply (log_levels_nest (Some "warn") "error"). vm_compute. eauto.
  - apply (log_levels_nest (Some "verbose") "error"). vm_compute. reflexivity.
Defined.

End LoggerMore.

Section AuthFacts.

Import Auth.

Lemma remove_first_unfold (pat s : string) :
  remove_first pat s
  = if String.prefix pat s
    then String.substring (String.length pat) (String.length s - String.length pat) s
    else match s with
         | EmptyString => EmptyString
         | String a rest => String a (remove_first pat rest)
         end.
Proof. by destruct s. Qed.

Lemma substring_all (s : string) : String.substring 0 (String.length s) s = s.
Proof. induction s as [|b s IHs]; cbn; [done|]. by rewrite IHs. Qed.

Lemma substring_append (p s : string) :
  String.substring (String.length p) (String.length (p +:+ s) - String.length p) (p +:+ s)
  = s.
Proof.
  induction p as [|a p IH]; cbn.
  - rewrite Nat.sub_0_r. apply substring_all.
  - exact IH.
Qed.

Lemma remove_first_prefix (pat s : string) : remove_first pat (pat +:+ s) = s.
Proof. rewrite remove_first_unfold, prefix_append. apply substring_append. Qed.

Lemma falsy_false (o : option string) : falsy o = false ↔ ∃ k, o = Some k ∧ k ≠ "".
Proof.
  destruct o as [k|]; cbn.
  - destruct (String.eqb_spec k ""); split; try done.
    + intros (k' & [= <-] & ?). done.
    + intros _. by exists k.
  - split; [done|]. by intros (k & ? & _).
Qed.

(** X24: the API key check lets a request through exactly when the key it
    presents is not empty and equals the configured [API_KEY]; a request
    without a key is refused 401 even when no key is configured, and one
    with a key but no configured [API_KEY] is refused 500, never let through.
    [optionalAuth] marks a request authenticated exactly when the check would
    let it through.  A key sent as [Authorization: Bearer <key>] is the
    presented key when there is no [x-api-key] header, and a non-empty
    [x-api-key] header takes precedence. *)
Theorem api_key_is_required_and_compared (API_KEY : option string) (h : headers) :
  (authenticateApiKey API_KEY h = Proceed
   ↔ ∃ k, k ≠ "" ∧ presented h = Some k ∧ API_KEY = Some k)
  ∧ (falsy (presented h) = true →
     authenticateApiKey API_KEY h = Refuse 401 "API key is required")
  ∧ (falsy (presented h) = false → falsy API_KEY = true →
     authenticateApiKey API_KEY h = Refuse 500 "Server configuration error")
  ∧ (optionalAuth API_KEY h = true ↔ authenticateApiKey API_KEY h = Proceed)
  ∧ (∀ k, x_api_key h = None → authorization h = Some ("Bearer " +:+ k) →
       presented h = Some k)
  ∧ (∀ k, k ≠ "" → x_api_key h = Some k → presented h = Some k).
Proof.
  assert (authenticateApiKey API_KEY h = Proceed
          ↔ ∃ k, k ≠ "" ∧ presented h = Some k ∧ API_KEY = Some k) as Hiff.
  { unfold authenticateApiKey.
    destruct (falsy (presented h)) eqn:Hp.
    - split; [done|]. intros (k & Hk & Hpk & _).
      assert (falsy (presented h) = false) by (apply falsy_false; eauto).
      congruence.
    - apply falsy_false in Hp as (k & Hpk & Hk).
      destruct (falsy API_KEY) eqn:Hv.
      + split; [done|]. intros (k' & Hk' & _ & ->).
        cbn in Hv. by destruct (String.eqb_spec k' "").
      + case_bool_decide as Heq; split; try done.
        * intros _. exists k. rewrite <- Heq. done.
        * intros (k' & _ & ? & ?). congruence. }
  split; [exact Hiff|]. split; [|split; [|split; [|split]]].
  - unfold authenticateApiKey. by intros ->.
  - unfold authenticateApiKey. by intros -> ->.
  - rewrite Hiff. unfold optionalAuth. rewrite andb_true_iff, negb_true_iff,
      falsy_false, bool_decide_eq_true. split.
    + intros ((k & Hpk & Hk) & Heq). exists k. by rewrite <- Heq.
    + intros (k & Hk & Hpk & ->). split; [by exists k|done].
  - intros k Hx Ha. unfold presented. rewrite Hx, Ha. cbn.
    f_equal. apply (remove_first_prefix "Bearer " k).
  - intros k Hk Hx. unfold presented. rewrite Hx.
    by destruct (String.eqb_spec k "").
Qed.

Lemma api_key_is_required_and_compared_witness :
  authenticateApiKey (Some "s3cret") (mkHeaders None (Some "Bearer s3cret")) = Proceed
  ∧ authenticateApiKey None (mkHeaders (Some "") None)
    = Refuse 401 "API key is required".
Proof.
  split.
  - apply (proj2 (proj1 (api_key_is_required_and_compared (Some "s3cret")
                           (mkHeaders None (Some "Bearer s3cret"))))).
    exists "s3cret". split; [discriminate|]. split; reflexivity.
  - apply (proj1 (proj2 (api_key_is_required_and_compared None
                           (mkHeaders (Some "") None)))).
    reflexivity.
Defined.

End AuthFacts.

(** ** Pagination *)

Section PaginationFacts.

Import MemoryValidation.

(** X25: whatever [parseInt] made of the query's limit and skip,
    [validatePagination] returns a limit that is an integer from 1 to 100 and
    a skip that is not negative and not NaN; a limit already from 1 to 100
    and a skip that is a non-negative integer are returned as they are, and a
    missing, unparsable or zero limit becomes 50. *)
Theorem pagination_is_bounded (limit skip : parsed) :
  ∃ n,
    p_limit (validatePagination limit skip) = PInt n
    ∧ 1 ≤ n ≤ 100
    ∧ (∀ k, limit = PInt k → 1 ≤ k ≤ 100 → n = k)
    ∧ (p_truthy limit = false → n = 50)
    ∧ p_lt (p_skip (validatePagination limit skip)) 0 = false
    ∧ p_skip (validatePagination limit skip) ≠ PNaN
    ∧ (∀ k, skip = PInt k → 0 ≤ k → p_skip (validatePagination limit skip) = PInt k).
Proof.
  unfold validatePagination, p_or.
  destruct limit as [|l|[]], skip as [|s|[]]; cbn;
    repeat (case_match; cbn in *; try lia);
    eexists; (split; [reflexivity|]); repeat split; try done; try lia;
    try (intros k [= <-] ?; f_equal; lia);
    try (intros k [= <-] ?; lia).
Qed.

Lemma pagination_is_bounded_witness :
  validatePagination (PInt 500) (PInt (-3)) = mkPage (PInt 100) (PInt 0)
  ∧ validatePagination (PInt 20) (PInt 40) = mkPage (PInt 20) (PInt 40).
Proof.
  split; [reflexivity|].
  destruct (pagination_is_bounded (PInt 20) (PInt 40))
    as (n & Hl & _ & Hkeep & _ & _ & _ & Hskip).
  specialize (Hkeep 20 eq_refl ltac:(lia)).
  specialize (Hskip 40 eq_refl ltac:(lia)).
  subst n. reflexivity.
Defined.

End PaginationFacts.
